(** * CorePlex-Documents: the generic document manager [Doc]

    A shallow embedding of the class [Doc] (permission normalisation in the
    constructor, the document operations and the comment operations)
    together with the properties its specification states about them.

    Layout: configuration types and the constructor; the stored records and
    what the schemas make of a write; the storage world and the monad the
    asynchronous methods run in; the methods; a concrete deployment used to
    evaluate the methods; the theorems. *)

From stdpp Require Import base option strings list gmap pretty.

Set Default Proof Using "Type".

(** * Roles

    [ERole] is declared in the core package ([@/core/types/user]); the class
    only ever names two of its members, [ERole.GEST] and [ERole.SELLER], and
    compares roles with [===] / [!==].  The enumeration is therefore a
    parameter: any type with decidable equality and these two members. *)

Class RoleEnum (ERole : Type) := {
  GEST : ERole;
  SELLER : ERole;
}.

(** * Enumerations of [types/general.ts] and of the message modules *)

Inductive EStates := PUBLISHED | DRAFT.

Inductive ECommentState := ACCEPTED | REJECTED | WAITING | PARENT_DELETED.

Inductive EDocumentMSG :=
| SUCCESS
| SUCCESS_CREATE
| SUCCESS_EDIT
| SUCCESS_DELETE
| CAN_CREATE_DOCUMENT
| USER_NOT_FOUND
| AUTHOR_NOT_FOUND
| DOCUMENT_NOT_FOUND
| EDITOR_NOT_FOUND
| NO_PERMISSION
| NEW_AUTHOR_IS_NOT_VALID.

(** The members of [ECommentMSG] the class refers to. *)
Inductive ECommentMSG :=
| C_SUCCESS
| C_SUCCESS_CREATE
| C_SUCCESS_EDIT
| C_SUCCESS_DELETE
| C_COMMENT_NOT_FOUND
| C_ARTICLE_NOT_FOUND
| C_USER_NOT_FOUND
| C_NO_PERMISSION.

Inductive Msg := DocumentMSG (m : EDocumentMSG) | CommentMSG (m : ECommentMSG).
Coercion DocumentMSG : EDocumentMSG >-> Msg.
Coercion CommentMSG : ECommentMSG >-> Msg.

(** The members of [EStatusCodes] the class refers to. *)
Inductive EStatusCodes :=
| ST_SUCCESS
| ST_SUCCESS_CREATE
| ST_NOT_FOUND
| ST_CONFLICT
| ST_FORBIDDEN.

#[global] Instance EStates_eq_dec : EqDecision EStates.
Proof. solve_decision. Defined.
#[global] Instance ECommentState_eq_dec : EqDecision ECommentState.
Proof. solve_decision. Defined.
#[global] Instance EDocumentMSG_eq_dec : EqDecision EDocumentMSG.
Proof. solve_decision. Defined.
#[global] Instance ECommentMSG_eq_dec : EqDecision ECommentMSG.
Proof. solve_decision. Defined.
#[global] Instance Msg_eq_dec : EqDecision Msg.
Proof. solve_decision. Defined.
#[global] Instance EStatusCodes_eq_dec : EqDecision EStatusCodes.
Proof. solve_decision. Defined.

(** * JavaScript operators on optional values *)

(** [x ?? y] where [y] is always defined. *)
Definition nullish {A} (x : option A) (y : A) : A :=
  match x with
  | Some v => v
  | None => y
  end.

Infix "??" := nullish (at level 45, right associativity).

(** [x?.f] for a property [f] that may itself be undefined. *)
Definition chain {A B} (x : option A) (f : A → option B) : option B :=
  match x with
  | Some v => f v
  | None => None
  end.

Notation "x ?. f" := (chain x f) (at level 40, left associativity, format "x ?. f").

(** [!s] for [s : string | undefined]: [undefined] and the empty string are
    the falsy values. *)
Definition falsy (s : option string) : bool :=
  match s with
  | None => true
  | Some v => bool_decide (v = "")
  end.

(** * Configuration: [IDocOptions] *)

Section Options.
Context {ERole : Type}.

(** [{role: ERole, public: boolean}] *)
Record RolePublic := { role : ERole; public : bool }.

(** [permissions.advance] *)
Record Advance := {
  adv_getAll : option ERole;
  adv_getOne : option ERole;
  adv_create : option ERole;
  adv_edit : option RolePublic;
  adv_delete : option RolePublic;
  adv_getDrafts : option RolePublic;
}.

(** [permissions] *)
Record Permissions := {
  read : option ERole;
  write : option ERole;
  advance : option Advance;
}.

(** [comments] *)
Record CommentOptions := {
  enabled : bool;
  canWrite : ERole;
  needToVerify : bool;
  canVerify : RolePublic;
  canMange : ERole;
}.

(** The fields of [IDocOptions] the constructor's permission processing
    and the operations read.  ([databaseSchema], [sortFields], [options],
    [category], [indexing] and [searchOn] only feed the construction of
    the storage schemas.) *)
Record IDocOptions := {
  docName : string;
  slugBase : option string;
  permissions : option Permissions;
  comments : option CommentOptions;
}.

Context `{!RoleEnum ERole}.

(** The object literal assigned to [document.permissions] in the
    constructor.  [p] is the value of [document.permissions] before the
    assignment; [p?.x] is the optional chain. *)
Definition processPermissions (p : option Permissions) : Permissions :=
  {| (* ...document.permissions *)
     read := p?.read;
     write := p?.write;
     advance := Some
       {| adv_getAll :=
            Some (p?.advance?.adv_getAll ?? p?.read ?? GEST);
          adv_getOne :=
            Some (p?.advance?.adv_getOne ?? p?.read ?? GEST);
          adv_create :=
            Some (p?.advance?.adv_create ?? p?.write ?? SELLER);
          adv_edit :=
            Some (p?.advance?.adv_edit ??
                  {| role := p?.write ?? SELLER; public := true |});
          adv_delete :=
            Some (p?.advance?.adv_delete ??
                  {| role := p?.write ?? SELLER; public := false |});
          adv_getDrafts :=
            Some (p?.advance?.adv_getDrafts ??
                  {| role := p?.write ?? SELLER; public := true |});
       |};
  |}.

(** The configuration as the constructor leaves it in [this.document]. *)
Definition normalize (document : IDocOptions) : IDocOptions :=
  {| docName := docName document;
     slugBase := slugBase document;
     permissions := Some (processPermissions (permissions document));
     comments := comments document;
  |}.

(** An instance of the class: the normalised configuration and whether
    [this.CommentModel] was created. *)
Record Doc := {
  document : IDocOptions;
  CommentModel : bool;
}.

Definition constructor (document : IDocOptions) : Doc :=
  let document := normalize document in
  {| document := document;
     CommentModel :=
       match comments document with
       | Some c => enabled c
       | None => false
       end;
  |}.

(** Optional-chained reads of [this.document.permissions?.advance?.x]. *)
Definition advanceOf (this : Doc) : option Advance :=
  permissions (document this)?.advance.

(** [this.document.comments?.enabled], as a condition. *)
Definition commentsEnabled (this : Doc) : bool :=
  match comments (document this) with
  | Some c => enabled c
  | None => false
  end.
End Options.

Arguments RolePublic : clear implicits.
Arguments Advance : clear implicits.
Arguments Permissions : clear implicits.
Arguments CommentOptions : clear implicits.
Arguments IDocOptions : clear implicits.
Arguments Doc : clear implicits.

(** * Stored records *)

(** Identifiers in their string form ([_id.toString()], [user.id]). *)
Abbreviation Id := string.

(** A reference to a user: the TypeScript interfaces declare it a string,
    which is how a payload carries it; the schemas declare it an ObjectId,
    which is how a stored record reads it back.  Both forms are kept,
    because [!==] tells them apart. *)
Inductive JsRef := AsString (i : Id) | AsObjectId (i : Id).

Definition refId (r : JsRef) : Id :=
  match r with
  | AsString i => i
  | AsObjectId i => i
  end.

(** What the storage layer writes to an ObjectId path: the reference, cast
    to an ObjectId. *)
Definition castObjectId (r : JsRef) : JsRef := AsObjectId (refId r).

(** [stored !== s], where [s] is a string or undefined: an ObjectId object
    is never strictly equal to a string, two strings are compared by
    content, undefined is strictly equal only to undefined. *)
Definition strictNotEqual (stored : option JsRef) (s : option Id) : bool :=
  match stored, s with
  | None, None => false
  | Some (AsString i), Some j => negb (bool_decide (i = j))
  | _, _ => true
  end.

(** A document of [this.Model]: the paths the class adds to the schema and
    the paths of the user's [databaseSchema], as an object. *)
Record DocRecord := {
  d_id : Id;
  d_slug : option string;
  d_state : EStates;
  d_authorId : option JsRef;
  d_fields : gmap string string;
}.

(** [Partial<IModel>]: [p_authorId] is [Some v] when the key [authorId] is
    in the object ([v] its value, possibly undefined). *)
Record DocPatch := {
  p_authorId : option (option JsRef);
  p_slug : option string;
  p_state : option EStates;
  p_fields : gmap string string;
}.

(** A document of [this.CommentModel]. *)
Record Comment := {
  c_id : Id;
  c_title : string;
  c_body : string;
  c_document : Id;
  c_user : option JsRef;
  c_parent : option Id;
  c_state : ECommentState;
}.

(** A comment as a query hands it back: [children] is defined when the
    query populated the virtual. *)
Record CommentDoc := {
  comment : Comment;
  children : option (list Comment);
}.

(** [Partial<IComment>], on the stored paths. *)
Record CommentPatch := {
  cp_title : option string;
  cp_body : option string;
  cp_document : option Id;
  cp_user : option JsRef;
  cp_parent : option Id;
  cp_state : option ECommentState;
}.

(** [ICommentFilter] *)
Record ICommentFilter := {
  f_user : option Id;
  f_state : option ECommentState;
  f_article : option Id;
}.

#[global] Instance JsRef_eq_dec : EqDecision JsRef.
Proof. solve_decision. Defined.
#[global] Instance DocRecord_eq_dec : EqDecision DocRecord.
Proof. solve_decision. Defined.
#[global] Instance Comment_eq_dec : EqDecision Comment.
Proof. solve_decision. Defined.

(** [data.state = v] *)
Definition set_cp_state (v : ECommentState) (data : CommentPatch) : CommentPatch :=
  {| cp_title := cp_title data;
     cp_body := cp_body data;
     cp_document := cp_document data;
     cp_user := cp_user data;
     cp_parent := cp_parent data;
     cp_state := Some v;
  |}.

(** [Partial<IComment>] with the key [state] alone: [{ state: s }]. *)
Definition statePatch (s : ECommentState) : CommentPatch :=
  {| cp_title := None; cp_body := None; cp_document := None;
     cp_user := None; cp_parent := None; cp_state := Some s |}.

(** The update a patch performs on a stored comment: the paths present in
    the patch are overwritten, the identifier never is; [user] is an
    ObjectId path of the schema of [createCommentsModel]. *)
Definition applyCommentPatch (data : CommentPatch) (c : Comment) : Comment :=
  {| c_id := c_id c;
     c_title := cp_title data ?? c_title c;
     c_body := cp_body data ?? c_body c;
     c_document := cp_document data ?? c_document c;
     c_user := match cp_user data with
               | Some u => Some (castObjectId u)
               | None => c_user c
               end;
     c_parent := match cp_parent data with Some p => Some p | None => c_parent c end;
     c_state := cp_state data ?? c_state c;
  |}.

(** ** The schema of [this.Model]

    [createModel] declares the path [slug] when [slugBase] is set, and the
    path [authorId], an ObjectId, unless creating is open to guests.  The
    storage layer writes the paths of the schema only, and casts what it
    writes to the type of the path. *)
Section Schema.
Context {ERole : Type} `{!EqDecision ERole, !RoleEnum ERole}.

(** [if (document.slugBase)] *)
Definition hasSlugPath (this : Doc ERole) : bool :=
  negb (falsy (slugBase (document this))).

(** [if (document.permissions?.advance?.create !== ERole.GEST)] *)
Definition hasAuthorIdPath (this : Doc ERole) : bool :=
  bool_decide (advanceOf this?.adv_create ≠ Some GEST).

(** The update a patch performs on a stored document: the paths of the
    schema present in the patch are overwritten, the identifier never is;
    a key of the patch that is no path of the schema is dropped.  (A patch
    whose [authorId] is undefined never gets to the update: [edit] finds no
    new author and returns.) *)
Definition applyDocPatch (this : Doc ERole) (data : DocPatch) (d : DocRecord)
    : DocRecord :=
  {| d_id := d_id d;
     d_slug := if hasSlugPath this
               then match p_slug data with Some s => Some s | None => d_slug d end
               else d_slug d;
     d_state := p_state data ?? d_state d;
     d_authorId := if hasAuthorIdPath this
                   then match p_authorId data with
                        | Some authorId => castObjectId <$> authorId
                        | None => d_authorId d
                        end
                   else d_authorId d;
     d_fields := p_fields data ∪ d_fields d;
  |}.
End Schema.

(** ** Collections

    A collection is the list of its records in storage order. *)
Section Collections.
Context {R : Type} (key : R → Id).

(** [findById(id)]: the first record with that identifier. *)
Definition findById (id : Id) (coll : list R) : option R :=
  List.find (λ r, bool_decide (key r = id)) coll.

(** Update of one record, the first with that identifier. *)
Fixpoint updateById (id : Id) (f : R → R) (coll : list R) : list R :=
  match coll with
  | [] => []
  | r :: rest =>
      if bool_decide (key r = id) then f r :: rest
      else r :: updateById id f rest
  end.

(** Removal of one record, the first with that identifier. *)
Fixpoint removeById (id : Id) (coll : list R) : list R :=
  match coll with
  | [] => []
  | r :: rest =>
      if bool_decide (key r = id) then rest
      else r :: removeById id rest
  end.
End Collections.

(** [deleteOne()] with no conditions: the empty filter matches every
    record and the first one in storage order is removed. *)
Definition removeFirst {R} (coll : list R) : list R := List.tl coll.

(** [.skip(n)] followed by [.limit(n)]: a limit of zero is no limit and a
    negative limit is read by its absolute value. *)
Definition skipLimit {R} (skip limit : Z) (l : list R) : list R :=
  let l := drop (Z.to_nat skip) l in
  if bool_decide (limit = 0%Z) then l else take (Z.to_nat (Z.abs limit)) l.

(** The virtual [children] of a comment: the comments whose [parent] is
    its identifier. *)
Definition childrenOf (id : Id) (coll : list Comment) : list Comment :=
  List.filter (λ c, bool_decide (c_parent c = Some id)) coll.

(** The one-level cascade, as a function on a stored comment: a comment
    whose parent is [i] takes the state PARENT_DELETED, any other comment
    is unchanged. *)
Definition markChild (i : Id) (c : Comment) : Comment :=
  if bool_decide (c_parent c = Some i)
  then applyCommentPatch (statePatch PARENT_DELETED) c
  else c.

(** The update one turn of the loop of [deleteComment] performs on the
    collection. *)
Definition cascadeStep (coll : list Comment) (child : Comment) : list Comment :=
  updateById c_id (c_id child) (applyCommentPatch (statePatch PARENT_DELETED)) coll.

(** What the one-level cascade of deleting the comment [i] leaves of the
    collection [before]: the comment is gone; every direct child is kept,
    in the state PARENT_DELETED; every other comment is kept as it was, the
    children of the children included; nothing else is stored. *)
Definition cascaded (i : Id) (before after : list Comment) : Prop :=
  findById c_id i after = None
  ∧ (∀ x, x ∈ before → c_id x ≠ i → c_parent x = Some i →
       applyCommentPatch (statePatch PARENT_DELETED) x ∈ after)
  ∧ (∀ x, x ∈ after → c_parent x = Some i → c_state x = PARENT_DELETED)
  ∧ (∀ x, x ∈ before → c_id x ≠ i → c_parent x ≠ Some i → x ∈ after)
  ∧ (∀ x g, x ∈ before → c_parent x = Some i → c_id x ≠ i →
       g ∈ before → c_parent g = Some (c_id x) → c_id g ≠ i → g ∈ after)
  ∧ (∀ y, y ∈ after → ∃ x, x ∈ before ∧ c_id x ≠ i ∧ y = markChild i x).

(** * The world the methods run in *)

Inductive ModelName := TheModel | TheCommentModel.

Inductive Status := Code (n : Z) | Named (s : EStatusCodes).

Section World.
Context {ERole : Type}.

(** A record of the user directory ([User.findById]). *)
Record User := { id : Id; u_role : ERole }.

(** Calls on the collaborators: the storage models, the user directory,
    the permission helper and the result builders. *)
Inductive Call :=
| Call_findDocByIdentity (m : ModelName) (identity : string)
| Call_User_findById (i : option Id)
| Call_permissionsCheck (required actor : option ERole)
| Call_find (m : ModelName) (skip limit : Z)
| Call_countDocuments (m : ModelName)
| Call_findById (m : ModelName) (i : Id)
| Call_findByIdAndUpdate (m : ModelName) (i : Id)
| Call_deleteOne (m : ModelName) (i : option Id)
| Call_singleError (field : string) (message : Msg) (status : option EStatusCodes)
| Call_success (message : Msg) (status : option EStatusCodes).

(** The two collections of one document kind, the user directory, and the
    trace of the calls made so far. *)
Record World := {
  docs : list DocRecord;
  commentDocs : list Comment;
  users : gmap Id ERole;
  calls : list Call;
}.

Definition record (c : Call) (w : World) : World :=
  {| docs := docs w;
     commentDocs := commentDocs w;
     users := users w;
     calls := calls w ++ [c];
  |}.

Definition setDocs (l : list DocRecord) (w : World) : World :=
  {| docs := l;
     commentDocs := commentDocs w;
     users := users w;
     calls := calls w;
  |}.

Definition setCommentDocs (l : list Comment) (w : World) : World :=
  {| docs := docs w;
     commentDocs := l;
     users := users w;
     calls := calls w;
  |}.

(** What a method hands to its caller.  [success] and [singleError] are
    the builders of [TypedResult]; [Paged] is the object literal with
    [pageData]; [ModelError] is [handleModelErrors(error)]; [Disabled] is
    [new Error("comments are disabled")]. *)
Inductive Result (D P : Type) :=
| Success (data : D) (message : Msg) (status : option EStatusCodes)
| SingleError (field : string) (message : Msg) (status : option EStatusCodes)
| Paged (status : Status) (data : D) (pageData : P)
| ModelError (error : Call)
| Disabled.

(** ** The monad of a method body

    A statement either completes ([Next]), executes a [return] ([Return])
    or a collaborator it awaits raises ([Throw]). *)
Inductive Outcome (R A : Type) :=
| Next (a : A) (w : World)
| Return (r : R) (w : World)
| Throw (error : Call) (w : World).

Definition M (R A : Type) : Type := World → Outcome R A.

(** How an asynchronous method settles. *)
Inductive Completion (R : Type) :=
| Resolved (r : R) (w : World)
| Rejected (error : Call) (w : World).
End World.

Arguments User : clear implicits.
Arguments Call : clear implicits.
Arguments World : clear implicits.
Arguments Result : clear implicits.
Arguments Outcome : clear implicits.
Arguments M : clear implicits.
Arguments Completion : clear implicits.
Arguments Success {ERole D P}.
Arguments SingleError {ERole D P}.
Arguments Paged {ERole D P}.
Arguments ModelError {ERole D P}.
Arguments Disabled {ERole D P}.
Arguments Next {ERole R A}.
Arguments Return {ERole R A}.
Arguments Throw {ERole R A}.
Arguments Resolved {ERole R}.
Arguments Rejected {ERole R}.

Section Monad.
Context {ERole R : Type}.

#[global] Instance M_ret : MRet (M ERole R) := λ A a w, Next a w.

#[global] Instance M_bind : MBind (M ERole R) := λ A B k m w,
  match m w with
  | Next a w' => k a w'
  | Return r w' => Return r w'
  | Throw e w' => Throw e w'
  end.

(** [return (await m)] *)
Definition return_ {A} (m : M ERole R R) : M ERole R A := λ w,
  match m w with
  | Next r w' => Return r w'
  | Return r w' => Return r w'
  | Throw e w' => Throw e w'
  end.

(** [try { body } catch (error) { handler }] *)
Definition try_catch {A} (body : M ERole R A) (handler : Call ERole → M ERole R A)
    : M ERole R A := λ w,
  match body w with
  | Throw e w' => handler e w'
  | o => o
  end.

(** [for (const x of l) { body }] *)
Fixpoint for_of {A} (l : list A) (body : A → M ERole R unit) : M ERole R unit :=
  match l with
  | [] => mret tt
  | x :: rest => body x ≫= λ _, for_of rest body
  end.

(** A pure collaborator call, traced. *)
Definition traced {A} (c : Call ERole) (a : A) : M ERole R A := λ w,
  Next a (record c w).

(** An awaited call that raises after it was made. *)
Definition throw {A} (error : Call ERole) : M ERole R A := λ w,
  Throw error w.

(** The settlement of a method whose every path returns. *)
Definition settle (body : M ERole R Empty_set) (w : World ERole) : Completion ERole R :=
  match body w with
  | Next a _ => match a with end
  | Return r w' => Resolved r w'
  | Throw e w' => Rejected e w'
  end.
End Monad.

(** * Collaborators

    The helpers the class imports from the core package and the options of
    the storage layer.  They are parameters of the development.
    [handleModelErrors] is the constructor [ModelError] of [Result]. *)
Class Collaborators (ERole JsNumber PageData : Type) := {
  (** [permissionsCheck(required, role)] of [@/core/helpers/auth] *)
  permissionsCheck : option ERole → option ERole → bool;
  (** [findDocByIdentity(identity, Model)] of [@/core/helpers/general], on a
      collection whose records have an identifier and possibly a slug *)
  findDocByIdentity :
    ∀ R : Type, (R → Id) → (R → option string) → string → list R → option R;
  (** [ConvertToNaturalNumber(n)] of [@/core/helpers/general] *)
  ConvertToNaturalNumber : JsNumber → Z;
  (** [getPageData(page, limit, total)] of [@/core/helpers/general] *)
  getPageData : Z → Z → nat → PageData;
  (** the order [.sort(spec)] puts the documents in *)
  sortDocs : string → list DocRecord → list DocRecord;
  (** the storage layer's [strictQuery] option: whether a filter key that
      is not a path of the schema is dropped from the filter *)
  strictQuery : bool;
  (** whether the storage layer raises on a call in a given world *)
  storageFaults : Call ERole → World ERole → bool;
}.

Section Methods.
Context {ERole JsNumber PageData : Type}.
Context `{!EqDecision ERole, !RoleEnum ERole}.
Context `{!Collaborators ERole JsNumber PageData}.

#[local] Abbreviation World := (World ERole).
#[local] Abbreviation Call := (Call ERole).
#[local] Abbreviation User := (User ERole).
#[local] Abbreviation Doc := (Doc ERole).

(** The record the user directory holds under an identifier; an
    undefined identifier finds nobody. *)
Definition findUser (w : World) (i : option Id) : option User :=
  match i with
  | Some k => (λ r, {| id := k; u_role := r |}) <$> users w !! k
  | None => None
  end.

(** ** Awaited calls *)
Section Calls.
Context {R : Type}.
#[local] Abbreviation Run := (M ERole R).

(** A call on the storage layer or the user directory: traced, and
    raising when the layer faults. *)
Definition storage {A} (c : Call) (f : World → A * World) : Run A := λ w,
  if storageFaults c w then Throw c (record c w)
  else let '(a, w') := f (record c w) in Next a w'.

Definition query {A} (c : Call) (f : World → A) : Run A :=
  storage c (λ w, (f w, w)).

(** [if (c) { m }] *)
Definition if_ (c : bool) (m : Run unit) : Run unit :=
  if c then m else mret tt.

(** [if (!x) return r], after which [x] is known to be defined *)
Definition or_return {A} (x : option A) (r : Run R) : Run A :=
  match x with
  | Some v => mret v
  | None => return_ r
  end.

Definition permissionsCheck_ (required actor : option ERole) : Run bool :=
  traced (Call_permissionsCheck required actor) (permissionsCheck required actor).

Definition singleError {D} (field : string) (message : Msg)
    (status : option EStatusCodes) : Run (Result ERole D PageData) :=
  traced (Call_singleError field message status) (SingleError field message status).

Definition success {D} (data : D) (message : Msg)
    (status : option EStatusCodes) : Run (Result ERole D PageData) :=
  traced (Call_success message status) (Success data message status).

(** [User.findById(i)] *)
Definition User_findById (i : option Id) : Run (option User) :=
  query (Call_User_findById i) (λ w, findUser w i).

(** [findDocByIdentity(identity, this.Model)] *)
Definition Model_findDocByIdentity (identity : string) : Run (option DocRecord) :=
  query (Call_findDocByIdentity TheModel identity) (λ w,
    findDocByIdentity DocRecord d_id d_slug identity (docs w)).

(** [findDocByIdentity(identity, this.CommentModel)]; the comment schema
    has no slug. *)
Definition CommentModel_findDocByIdentity (identity : string) : Run (option Comment) :=
  query (Call_findDocByIdentity TheCommentModel identity) (λ w,
    findDocByIdentity Comment c_id (λ _, None) identity (commentDocs w)).

Definition matchesDocFilter (filter : option EStates) (d : DocRecord) : bool :=
  match filter with
  | Some s => bool_decide (d_state d = s)
  | None => true
  end.

(** [this.Model.find(filter).sort(sort).skip(skip).limit(limit)]; the
    storage layer refuses a negative skip. *)
Definition Model_find (filter : option EStates) (sort : string) (skip limit : Z)
    : Run (list DocRecord) := λ w,
  if bool_decide (skip < 0)%Z
  then Throw (Call_find TheModel skip limit) (record (Call_find TheModel skip limit) w)
  else query (Call_find TheModel skip limit) (λ w,
         skipLimit skip limit
           (sortDocs sort (List.filter (matchesDocFilter filter) (docs w)))) w.

Definition Model_countDocuments (filter : option EStates) : Run nat :=
  query (Call_countDocuments TheModel) (λ w,
    length (List.filter (matchesDocFilter filter) (docs w))).

(** [this.Model.findByIdAndUpdate(i, data)]: without the option [new]
    the record as it was before the update is handed back. *)
Definition Model_findByIdAndUpdate (this : Doc) (i : Id) (data : DocPatch)
    : Run (option DocRecord) :=
  storage (Call_findByIdAndUpdate TheModel i) (λ w,
    (findById d_id i (docs w),
     setDocs (updateById d_id i (applyDocPatch this data) (docs w)) w)).

(** [this.Model.deleteOne()] *)
Definition Model_deleteOne : Run unit :=
  storage (Call_deleteOne TheModel None) (λ w,
    (tt, setDocs (removeFirst (docs w)) w)).

(** A filter key of [ICommentFilter] constrains the stored path of the
    same name.  The comment schema has no path [article]: under
    [strictQuery] the key is dropped, otherwise it is matched against a
    path no stored comment has. *)
Definition matchesCommentFilter (filter : ICommentFilter) (c : Comment) : bool :=
  match f_user filter with
  | Some u => bool_decide (refId <$> c_user c = Some u)
  | None => true
  end
  && match f_state filter with
     | Some s => bool_decide (c_state c = s)
     | None => true
     end
  && match f_article filter with
     | Some _ => strictQuery
     | None => true
     end.

Definition populate (w : World) (c : Comment) : CommentDoc :=
  {| comment := c; children := Some (childrenOf (c_id c) (commentDocs w)) |}.

(** [this.CommentModel.find(filter).populate("children").skip(skip).limit(limit)] *)
Definition CommentModel_find (filter : ICommentFilter) (skip limit : Z)
    : Run (list CommentDoc) := λ w,
  if bool_decide (skip < 0)%Z
  then Throw (Call_find TheCommentModel skip limit)
         (record (Call_find TheCommentModel skip limit) w)
  else query (Call_find TheCommentModel skip limit) (λ w,
         populate w <$>
           skipLimit skip limit
             (List.filter (matchesCommentFilter filter) (commentDocs w))) w.

Definition CommentModel_countDocuments (filter : ICommentFilter) : Run nat :=
  query (Call_countDocuments TheCommentModel) (λ w,
    length (List.filter (matchesCommentFilter filter) (commentDocs w))).

(** [this.CommentModel.findById(i).populate("children")] *)
Definition CommentModel_findById (i : Id) : Run (option CommentDoc) :=
  query (Call_findById TheCommentModel i) (λ w,
    populate w <$> findById c_id i (commentDocs w)).

(** [this.CommentModel.findByIdAndUpdate(i, data, { new: true })]: the
    updated record is handed back, not populated. *)
Definition CommentModel_findByIdAndUpdate_new (i : Id) (data : CommentPatch)
    : Run (option CommentDoc) :=
  storage (Call_findByIdAndUpdate TheCommentModel i) (λ w,
    let updated := updateById c_id i (applyCommentPatch data) (commentDocs w) in
    ((λ c, {| comment := c; children := None |}) <$> findById c_id i updated,
     setCommentDocs updated w)).

(** [this.CommentModel.findByIdAndUpdate(i, { state })] *)
Definition CommentModel_findByIdAndUpdate_state (i : Id) (s : ECommentState)
    : Run (option Comment) :=
  storage (Call_findByIdAndUpdate TheCommentModel i) (λ w,
    (findById c_id i (commentDocs w),
     setCommentDocs
       (updateById c_id i (applyCommentPatch (statePatch s)) (commentDocs w)) w)).

(** [comment.deleteOne()] on a loaded comment *)
Definition comment_deleteOne (c : CommentDoc) : Run unit :=
  storage (Call_deleteOne TheCommentModel (Some (c_id (comment c)))) (λ w,
    (tt, setCommentDocs (removeById c_id (c_id (comment c)) (commentDocs w)) w)).
End Calls.

(** [!b] for [b : boolean | undefined] *)
Definition not_ (b : option bool) : bool := negb (b ?? false).

(** [catch (error) { return handleModelErrors(error) }] *)
Definition handleModelErrors {D A} (error : Call)
    : M ERole (Result ERole D PageData) A :=
  return_ (mret (ModelError error)).

(** ** [getAll(page, limit, { sort = ["-createdAt"], userId })] *)
Definition getAll (this : Doc) (page limit : JsNumber)
    (sort : option (list string)) (userId : option Id)
    : World → Completion ERole (Result ERole (list DocRecord) PageData) :=
  settle (
    let sort := sort ?? ["-createdAt"] in
    (* check to see who can get all documents *)
    user ← (if bool_decide (advanceOf this?.adv_getAll ≠ Some GEST) then
              if_ (falsy userId)
                (return_ (singleError "user" USER_NOT_FOUND None));;
              user ← User_findById userId;
              (* if user don't have perm return error *)
              allowed ← permissionsCheck_ (advanceOf this?.adv_getAll) (u_role <$> user);
              if_ (negb allowed)
                (return_ (singleError "user" NO_PERMISSION None));;
              mret user
            else mret None);
    (* validate page and limit *)
    let page := ConvertToNaturalNumber page in
    let limit := ConvertToNaturalNumber limit in
    (* generate skip *)
    let skip := ((page - 1) * limit)%Z in
    (* check to see how can see drafts *)
    filter ← (if bool_decide (role <$> advanceOf this?.adv_getDrafts = Some GEST) then
                mret None
              else if negb (falsy userId) then
                user ← match user with
                       | None => User_findById userId
                       | Some _ => mret user
                       end;
                allowed ← permissionsCheck_ (role <$> advanceOf this?.adv_getDrafts)
                            (u_role <$> user);
                mret (if (allowed : bool) then None else Some PUBLISHED)
              else mret (Some PUBLISHED));
    try_catch
      (doc ← Model_find filter (String.concat " " sort) skip limit;
       totalArticles ← Model_countDocuments filter;
       let pageData := getPageData page limit totalArticles in
       return_ (mret (Paged (Code 200) doc pageData)))
      handleModelErrors).

(** ** [edit(identity, data, editorId)] *)
Definition edit (this : Doc) (identity : string) (data : DocPatch)
    (editorId : option Id)
    : World → Completion ERole (Result ERole (option DocRecord) PageData) :=
  settle (
    let permissions := advanceOf this?.adv_edit in
    (* get document and check if exist *)
    document ← Model_findDocByIdentity identity;
    document ← or_return document
                 (singleError "document" DOCUMENT_NOT_FOUND None);
    (* check if user needed *)
    user ← (if bool_decide (role <$> permissions ≠ Some GEST)
               || not_ (public <$> permissions) then
              user ← User_findById editorId;
              if_ (bool_decide (user = None))
                (return_ (singleError "user" USER_NOT_FOUND None));;
              mret user
            else mret None);
    (* check edit permission *)
    if_ (bool_decide (role <$> permissions ≠ Some GEST))
      (allowed ← permissionsCheck_ (role <$> permissions) (u_role <$> user);
       if_ (negb allowed)
         (return_ (singleError "user" NO_PERMISSION None)));;
    (* check to see if other users with perm can edit other's document *)
    if_ (not_ (public <$> permissions)
         && strictNotEqual (d_authorId document) (id <$> user))
      (return_ (singleError "user" NO_PERMISSION None));;
    (* check if document author changed author *)
    match p_authorId data with
    | Some authorId =>
        (* check if new document author exist *)
        newAuthor ← User_findById (refId <$> authorId);
        if_ (bool_decide (newAuthor = None))
          (return_ (singleError "new_author" USER_NOT_FOUND (Some ST_NOT_FOUND)));;
        (* check if new author has perm *)
        allowed ← permissionsCheck_ (advanceOf this?.adv_create) (u_role <$> newAuthor);
        if_ (negb allowed)
          (return_ (singleError "new_author" NEW_AUTHOR_IS_NOT_VALID None))
    | None => mret tt
    end;;
    try_catch
      ((* save new data to DB *)
       newDoc ← Model_findByIdAndUpdate this (d_id document) data;
       return_ (success newDoc SUCCESS_EDIT (Some ST_SUCCESS_CREATE)))
      handleModelErrors).

(** ** [delete(identity, userId)] *)
Definition delete (this : Doc) (identity : string) (userId : option Id)
    : World → Completion ERole (Result ERole DocRecord PageData) :=
  settle (
    let permissions := advanceOf this?.adv_delete in
    (* check if document exit *)
    document ← Model_findDocByIdentity identity;
    document ← or_return document
                 (singleError "document" DOCUMENT_NOT_FOUND None);
    (* check if user needed *)
    user ← (if bool_decide (role <$> permissions ≠ Some GEST)
               || not_ (public <$> permissions) then
              user ← User_findById userId;
              if_ (bool_decide (user = None))
                (return_ (singleError "user" USER_NOT_FOUND None));;
              mret user
            else mret None);
    if_ (bool_decide (role <$> permissions ≠ Some GEST))
      ((* check the permissions *)
       allowed ← permissionsCheck_ (role <$> permissions) (u_role <$> user);
       if_ (negb allowed)
         (return_ (singleError "user" NO_PERMISSION None)));;
    (* check to see if other users with perm can delete other's document *)
    if_ (not_ (public <$> permissions)
         && strictNotEqual (d_authorId document) (id <$> user))
      (return_ (singleError "user" NO_PERMISSION None));;
    try_catch
      ((* delete document from DB *)
       Model_deleteOne;;
       return_ (success document SUCCESS_DELETE (Some ST_SUCCESS)))
      handleModelErrors).

(** ** The comment operations, [this.Comment] *)

(** [!this.CommentModel || !this.document.comments?.enabled] *)
Definition commentsDisabled (this : Doc) : bool :=
  negb (CommentModel this) || negb (commentsEnabled this).

(** [return new Error("comments are disabled")] *)
Definition disabled {D A} : M ERole (Result ERole D PageData) A :=
  return_ (mret Disabled).

(** [getDocumentComments(identity, page, limit)] *)
Definition getDocumentComments (this : Doc) (identity : string)
    (page limit : JsNumber)
    : World → Completion ERole (Result ERole (list CommentDoc) PageData) :=
  settle (
    if_ (commentsDisabled this) disabled;;
    (* validate page and limit *)
    let page := ConvertToNaturalNumber page in
    let limit := ConvertToNaturalNumber limit in
    (* generate skip *)
    let skip := ((page - 1) * limit)%Z in
    (* get document and create filter obj *)
    document ← CommentModel_findDocByIdentity identity;
    document ← or_return document
                 (singleError "article" C_ARTICLE_NOT_FOUND (Some ST_NOT_FOUND));
    let filter := {| f_user := None;
                     f_state := Some ACCEPTED;
                     f_article := Some (c_id document) |} in
    try_catch
      ((* get comments *)
       comments ← CommentModel_find filter skip limit;
       (* get total number of comments base on filter *)
       totalComments ← CommentModel_countDocuments filter;
       (* get page data *)
       let pageData := getPageData page limit totalComments in
       return_ (mret (Paged (Named ST_SUCCESS) comments pageData)))
      handleModelErrors).

(** [editComment(commentId, data, editorId)] *)
Definition editComment (this : Doc) (commentId : Id) (data : CommentPatch)
    (editorId : Id)
    : World → Completion ERole (Result ERole CommentDoc PageData) :=
  settle (
    if_ (commentsDisabled this) disabled;;
    (* check if user exist *)
    user ← User_findById (Some editorId);
    user ← or_return user
             (singleError "user" C_USER_NOT_FOUND (Some ST_CONFLICT));
    (* check user if user is not seller then set state to waiting *)
    allowed ← permissionsCheck_
                (role <$> (canVerify <$> comments (document this)))
                (Some (u_role user));
    let data := if (allowed : bool) then data else set_cp_state WAITING data in
    try_catch
      (newComment ← CommentModel_findByIdAndUpdate_new commentId data;
       (* check if comment exist *)
       newComment ← or_return newComment
                      (singleError "commentId" C_COMMENT_NOT_FOUND (Some ST_NOT_FOUND));
       return_ (success newComment C_SUCCESS_EDIT (Some ST_SUCCESS)))
      handleModelErrors).

(** [deleteComment(commentId, editorId)] *)
Definition deleteComment (this : Doc) (commentId editorId : Id)
    : World → Completion ERole (Result ERole CommentDoc PageData) :=
  settle (
    if_ (commentsDisabled this) disabled;;
    (* check if user exist *)
    user ← User_findById (Some editorId);
    user ← or_return user
             (singleError "user" C_USER_NOT_FOUND (Some ST_CONFLICT));
    comment_ ← CommentModel_findById commentId;
    (* check if comment exist *)
    comment_ ← or_return comment_
                 (singleError "commentId" C_COMMENT_NOT_FOUND (Some ST_NOT_FOUND));
    (* check editor permission *)
    denied ← (if strictNotEqual (c_user (comment comment_)) (Some (id user)) then
                allowed ← permissionsCheck_
                            (canMange <$> comments (document this))
                            (Some (u_role user));
                mret (negb allowed)
              else mret false);
    if_ denied
      (singleError (D:=CommentDoc) "editor" C_NO_PERMISSION (Some ST_FORBIDDEN);;
       mret tt);;
    try_catch
      ((* delete comment from db *)
       comment_deleteOne comment_;;
       (* change state of all comment children *)
       match children comment_ with
       | Some children =>
           for_of children (λ child,
             CommentModel_findByIdAndUpdate_state (c_id child) PARENT_DELETED;;
             mret tt)
       | None => mret tt
       end;;
       return_ (success comment_ C_SUCCESS_DELETE (Some ST_SUCCESS)))
      handleModelErrors).
End Methods.

(** * A deployment

    A concrete role enumeration and concrete collaborators, on which the
    methods evaluate. *)
Module Deployment.
Inductive ERole := GEST_ | USER_ | SELLER_ | ADMIN_.

#[export] Instance ERole_eq_dec : EqDecision ERole.
Proof. solve_decision. Defined.

#[export] Instance ERole_enum : RoleEnum ERole :=
  {| GEST := GEST_; SELLER := SELLER_ |}.

Definition rank (r : ERole) : nat :=
  match r with
  | GEST_ => 0
  | USER_ => 1
  | SELLER_ => 2
  | ADMIN_ => 3
  end.

(** Modelled from the spec: [permissionsCheck] is not in the sources; the
    specification's role hierarchy has one comparison rule, the actor's
    rank is at least the required rank.  An actor without a role meets
    only a requirement of rank zero. *)
Definition roleSatisfies (required actor : option ERole) : bool :=
  match required, actor with
  | None, _ => true
  | Some r, Some a => bool_decide (rank r ≤ rank a)
  | Some r, None => bool_decide (rank r = 0)
  end.

Definition isHexDigit (a : Ascii.ascii) : bool :=
  let n := Ascii.nat_of_ascii a in
  bool_decide (48 ≤ n ≤ 57) || bool_decide (97 ≤ n ≤ 102) || bool_decide (65 ≤ n ≤ 70).

(** The storage engine's identifier format: 24 hexadecimal digits. *)
Definition isValidObjectId (s : string) : bool :=
  bool_decide (String.length s = 24) && forallb isHexDigit (String.list_ascii_of_string s).

(** Modelled from the spec: [findDocByIdentity] is not in the sources; an
    identity in the storage engine's identifier format is looked up by
    identifier, any other by slug, and one strategy is attempted per
    call. *)
Definition findByIdentity (R : Type) (key : R → Id) (slug : R → option string)
    (identity : string) (coll : list R) : option R :=
  if isValidObjectId identity then findById key identity coll
  else List.find (λ r, bool_decide (slug r = Some identity)) coll.

Record PageData := {
  pd_page : Z;
  pd_limit : Z;
  pd_total : nat;
  pd_totalPages : Z;
  pd_hasNext : bool;
  pd_hasPrev : bool;
}.

(** Modelled from the spec: [ConvertToNaturalNumber] is not in the
    sources; an input below one is mapped up to one. *)
Definition toNatural (n : Z) : Z := Z.max 1 n.

(** Modelled from the spec: [getPageData] is not in the sources; the
    number of pages is the total divided by the limit, rounded up, a next
    page exists below the last page and a previous one above the first. *)
Definition pageData (page limit : Z) (total : nat) : PageData :=
  let pages := ((Z.of_nat total + limit - 1) / limit)%Z in
  {| pd_page := page;
     pd_limit := limit;
     pd_total := total;
     pd_totalPages := pages;
     pd_hasNext := bool_decide (page < pages)%Z;
     pd_hasPrev := bool_decide (1 < page)%Z;
  |}.

(** The faults of the storage layer and of the user directory: a lookup
    or an update by an identifier that is not in the identifier format
    raises, the string cannot be cast to an ObjectId; a lookup by an
    undefined identifier finds nothing; no other call raises. *)
Definition castFails (c : Call ERole) (w : World ERole) : bool :=
  match c with
  | Call_User_findById (Some i) => negb (isValidObjectId i)
  | Call_findById _ i => negb (isValidObjectId i)
  | Call_findByIdAndUpdate _ i => negb (isValidObjectId i)
  | _ => false
  end.

(** The collaborators, for either setting of [strictQuery]; the storage
    layer keeps the storage order under [sort]. *)
Definition collaborators (strict : bool) : Collaborators ERole Z PageData :=
  {| permissionsCheck := roleSatisfies;
     findDocByIdentity := findByIdentity;
     ConvertToNaturalNumber := toNatural;
     getPageData := pageData;
     sortDocs := λ _ l, l;
     strictQuery := strict;
     storageFaults := castFails;
  |}.

#[export] Instance collaborators_default : Collaborators ERole Z PageData :=
  collaborators false.
End Deployment.

(** * Conditions the statements are phrased with *)
Section Conditions.
Context {ERole JsNumber PageData : Type}.
Context `{!EqDecision ERole, !RoleEnum ERole}.
Context `{!Collaborators ERole JsNumber PageData}.

(** The storage layer (or the user directory) answers the call [c]: it
    does not raise on it, whatever is stored. *)
Definition answers (c : Call ERole) : Prop :=
  ∀ w : World ERole, storageFaults c w = false.

Definition resultOf {R} (c : Completion ERole R) : option R :=
  match c with
  | Resolved r _ => Some r
  | Rejected _ _ => None
  end.

Definition worldOf {R} (c : Completion ERole R) : World ERole :=
  match c with
  | Resolved _ w => w
  | Rejected _ w => w
  end.

(** The calls a method added to the trace of [w]. *)
Definition callsSince {R} (w : World ERole) (c : Completion ERole R) : list (Call ERole) :=
  drop (length (calls w)) (calls (worldOf c)).

(** Nothing stored differs between the two worlds. *)
Definition sameStorage (w w' : World ERole) : Prop :=
  docs w' = docs w ∧ commentDocs w' = commentDocs w ∧ users w' = users w.

(** The conditions of [edit] and [delete], for the policy [permissions]
    of the operation. *)

(** [permissions?.role !== ERole.GEST || !permissions?.public] *)
Definition needsActor (permissions : option (RolePublic ERole)) : bool :=
  bool_decide (role <$> permissions ≠ Some GEST) || not_ (public <$> permissions).

(** The local [user] once the block "check if user needed" is passed. *)
Definition actorOf (permissions : option (RolePublic ERole)) (w : World ERole)
    (i : option Id) : option (User ERole) :=
  if needsActor permissions then findUser w i else None.

(** The block "check if user needed" does not return. *)
Definition actorResolves (permissions : option (RolePublic ERole)) (w : World ERole)
    (i : option Id) : bool :=
  negb (needsActor permissions) || bool_decide (findUser w i ≠ None).

(** The role check does not return. *)
Definition roleCheckPasses (permissions : option (RolePublic ERole))
    (user : option (User ERole)) : bool :=
  negb (bool_decide (role <$> permissions ≠ Some GEST))
  || permissionsCheck (role <$> permissions) (u_role <$> user).

(** The ownership check does not return. *)
Definition ownershipCheckPasses (permissions : option (RolePublic ERole))
    (document : DocRecord) (user : option (User ERole)) : bool :=
  negb (not_ (public <$> permissions)
        && strictNotEqual (d_authorId document) (id <$> user)).

(** The calls the block "check if user needed" and the role check make. *)
Definition actorLookup (permissions : option (RolePublic ERole)) (actorId : option Id)
    : list (Call ERole) :=
  if needsActor permissions then [Call_User_findById actorId] else [].

Definition roleCheck (permissions : option (RolePublic ERole))
    (user : option (User ERole)) : list (Call ERole) :=
  if bool_decide (role <$> permissions ≠ Some GEST)
  then [Call_permissionsCheck (role <$> permissions) (u_role <$> user)]
  else [].

(** The calls of a run that has got past the checks common to the write
    operations: the lookup of the record, the lookup of the actor, the
    role check.  (The ownership check is a comparison and calls nothing.) *)
Definition checksCalls (permissions : option (RolePublic ERole)) (identity : string)
    (actorId : option Id) (w : World ERole) : list (Call ERole) :=
  [Call_findDocByIdentity TheModel identity]
  ++ actorLookup permissions actorId
  ++ roleCheck permissions (actorOf permissions w actorId).

(** The order of the checks common to the write operations, read off a
    run [run] of an operation with policy [permissions] on [identity] for
    the actor [actorId], by its answer and by the calls it has made:

    - a missing record is reported first, nothing else having been
      consulted;
    - then an actor that does not resolve, the role not having been
      checked;
    - then a failed role check, whatever the ownership: the error follows
      the permission check at once;
    - then a failed ownership check, after the role check (where the policy
      has one) and before anything else is consulted;
    - a run that passes them has made these calls, in this order, before
      any other, and reports no error on the record or the actor. *)
Definition checksInOrder {D} (permissions : option (RolePublic ERole))
    (identity : string) (actorId : option Id) (w : World ERole)
    (run : Completion ERole (Result ERole D PageData)) : Prop :=
  let lookup := Call_findDocByIdentity TheModel identity in
  match findDocByIdentity DocRecord d_id d_slug identity (docs w) with
  | None =>
      resultOf run = Some (SingleError "document" DOCUMENT_NOT_FOUND None)
      ∧ callsSince w run
        = [lookup; Call_singleError "document" DOCUMENT_NOT_FOUND None]
  | Some document =>
      let user := actorOf permissions w actorId in
      if negb (actorResolves permissions w actorId) then
        resultOf run = Some (SingleError "user" USER_NOT_FOUND None)
        ∧ callsSince w run
          = [lookup; Call_User_findById actorId;
             Call_singleError "user" USER_NOT_FOUND None]
      else if negb (roleCheckPasses permissions user) then
        resultOf run = Some (SingleError "user" NO_PERMISSION None)
        ∧ callsSince w run
          = [lookup; Call_User_findById actorId;
             Call_permissionsCheck (role <$> permissions) (u_role <$> user);
             Call_singleError "user" NO_PERMISSION None]
      else if negb (ownershipCheckPasses permissions document user) then
        resultOf run = Some (SingleError "user" NO_PERMISSION None)
        ∧ callsSince w run
          = [lookup; Call_User_findById actorId]
            ++ roleCheck permissions user
            ++ [Call_singleError "user" NO_PERMISSION None]
      else
        (∀ field message status,
           resultOf run = Some (SingleError field message status) →
           field ≠ "document" ∧ field ≠ "user")
        ∧ checksCalls permissions identity actorId w `prefix_of` callsSince w run
  end.

(** The check on the new author of [edit], which comes last: when the
    record exists and the actor passes, a payload with the key [authorId]
    is refused for a missing new author and then for one the create
    permission does not admit, and the calls of either refusal follow,
    in the trace, the calls of the checks before. *)
Definition reassignmentCheckedLast (this : Doc ERole) (identity : string)
    (data : DocPatch) (actorId : option Id) (w : World ERole)
    (run : Completion ERole (Result ERole (option DocRecord) PageData)) : Prop :=
  let permissions := advanceOf this?.adv_edit in
  ∀ document authorId,
    findDocByIdentity DocRecord d_id d_slug identity (docs w) = Some document →
    actorResolves permissions w actorId = true →
    roleCheckPasses permissions (actorOf permissions w actorId) = true →
    ownershipCheckPasses permissions document (actorOf permissions w actorId) = true →
    p_authorId data = Some authorId →
    answers (Call_User_findById (refId <$> authorId)) →
    answers (Call_findByIdAndUpdate TheModel (d_id document)) →
    let passed := checksCalls permissions identity actorId w in
    let lookup := Call_User_findById (refId <$> authorId) in
    match findUser w (refId <$> authorId) with
    | None =>
        resultOf run = Some (SingleError "new_author" USER_NOT_FOUND (Some ST_NOT_FOUND))
        ∧ callsSince w run
          = passed
            ++ [lookup; Call_singleError "new_author" USER_NOT_FOUND (Some ST_NOT_FOUND)]
    | Some newAuthor =>
        let check :=
          Call_permissionsCheck (advanceOf this?.adv_create) (Some (u_role newAuthor)) in
        if permissionsCheck (advanceOf this?.adv_create) (Some (u_role newAuthor))
        then (∃ newDoc, resultOf run
                = Some (Success newDoc SUCCESS_EDIT (Some ST_SUCCESS_CREATE)))
             ∧ callsSince w run
               = passed
                 ++ [lookup; check; Call_findByIdAndUpdate TheModel (d_id document);
                     Call_success SUCCESS_EDIT (Some ST_SUCCESS_CREATE)]
        else resultOf run
               = Some (SingleError "new_author" NEW_AUTHOR_IS_NOT_VALID None)
             ∧ callsSince w run
               = passed
                 ++ [lookup; check;
                     Call_singleError "new_author" NEW_AUTHOR_IS_NOT_VALID None]
    end.

(** The storage layer answers the calls of a [deleteComment] that gets to
    the deletion of the comment [commentId]: the lookup of the editor, the
    lookup of the comment, its deletion and the update of each of its
    children. *)
Definition deletionAnswered (w : World ERole) (commentId editorId : Id) : Prop :=
  answers (Call_User_findById (Some editorId))
  ∧ answers (Call_findById TheCommentModel commentId)
  ∧ answers (Call_deleteOne TheCommentModel (Some commentId))
  ∧ ∀ child, child ∈ childrenOf commentId (commentDocs w) →
      answers (Call_findByIdAndUpdate TheCommentModel (c_id child)).

(** The author of a stored document reads back as an ObjectId, when the
    document has one: the form the path [authorId] of the schema gives. *)
Definition authorReadsBack (d : DocRecord) : Prop :=
  ∀ i, d_authorId d ≠ Some (AsString i).

(** The user of a stored comment reads back as an ObjectId, when the
    comment has one. *)
Definition userReadsBack (c : Comment) : Prop :=
  ∀ i, c_user c ≠ Some (AsString i).
End Conditions.

(** The precedence the constructor fills a field by: the explicit value,
    else the shorthand, else the hard-coded default. *)
Definition byPrecedence {A} (explicit shorthand : option A) (hard : A)
    (field : option A) : Prop :=
  match explicit, shorthand with
  | Some v, _ => field = Some v
  | None, Some v => field = Some v
  | None, None => field = Some hard
  end.

(** Every field of [advance] is populated. *)
Definition populated {ERole} (adv : Advance ERole) : Prop :=
  is_Some (adv_getAll adv) ∧ is_Some (adv_getOne adv) ∧ is_Some (adv_create adv)
  ∧ is_Some (adv_edit adv) ∧ is_Some (adv_delete adv) ∧ is_Some (adv_getDrafts adv).

(** * A sample store

    One document kind of the deployment with two documents, three users
    and a small comment tree, on which the methods are evaluated. *)
Module Sample.
Import Deployment.

Definition idA : Id := "64b000000000000000000001".
Definition idB : Id := "64b000000000000000000002".
Definition admin : Id := "74b000000000000000000001".
Definition seller : Id := "74b000000000000000000002".
Definition reader : Id := "74b000000000000000000003".
Definition idC : Id := "84b000000000000000000001".
Definition idX : Id := "84b000000000000000000002".
Definition idY : Id := "84b000000000000000000003".
Definition idG : Id := "84b000000000000000000004".
Definition idZ : Id := "84b000000000000000000005".

(** An identifier in the identifier format under which nothing is stored
    and nobody is known. *)
Definition stranger : Id := "74b0000000000000000000ff".

Definition docA : DocRecord :=
  {| d_id := idA; d_slug := Some "first"; d_state := PUBLISHED;
     d_authorId := Some (AsObjectId seller); d_fields := ∅ |}.

Definition docB : DocRecord :=
  {| d_id := idB; d_slug := Some "second"; d_state := PUBLISHED;
     d_authorId := Some (AsObjectId seller); d_fields := ∅ |}.

Definition newComment (i : Id) (document : Id) (parent : option Id) : Comment :=
  {| c_id := i; c_title := "title"; c_body := "body"; c_document := document;
     c_user := Some (AsObjectId reader); c_parent := parent; c_state := ACCEPTED |}.

(** A comment [C] on the first document with two direct children [X] and
    [Y], a child [G] of [X], and a comment [Z] on the second document. *)
Definition commentC := newComment idC idA None.
Definition commentX := newComment idX idA (Some idC).
Definition commentY := newComment idY idA (Some idC).
Definition commentG := newComment idG idA (Some idX).
Definition commentZ := newComment idZ idB None.

Definition world : World ERole :=
  {| docs := [docA; docB];
     commentDocs := [commentC; commentX; commentY; commentG; commentZ];
     users := {[ admin := ADMIN_; seller := SELLER_; reader := USER_ ]};
     calls := [];
  |}.

(** The raw configuration: listing needs a registered user, creating an
    administrator; editing is open to every registered user and deleting
    to every seller; comments are verified and managed by administrators. *)
Definition options : IDocOptions ERole :=
  {| docName := "Post";
     slugBase := Some "title";
     permissions := Some
       {| read := None;
          write := None;
          advance := Some
            {| adv_getAll := Some USER_;
               adv_getOne := None;
               adv_create := Some ADMIN_;
               adv_edit := Some {| role := USER_; public := true |};
               adv_delete := Some {| role := SELLER_; public := true |};
               adv_getDrafts := None |} |};
     comments := Some
       {| enabled := true;
          canWrite := USER_;
          needToVerify := true;
          canVerify := {| role := ADMIN_; public := true |};
          canMange := ADMIN_ |};
  |}.

Definition this : Doc ERole := constructor options.

(** The same kind with editing reserved, among the sellers, to the author
    of a document. *)
Definition guarded : Doc ERole :=
  constructor
    {| docName := "Post";
       slugBase := Some "title";
       permissions := Some
         {| read := None;
            write := None;
            advance := Some
              {| adv_getAll := None;
                 adv_getOne := None;
                 adv_create := None;
                 adv_edit := Some {| role := SELLER_; public := false |};
                 adv_delete := None;
                 adv_getDrafts := None |} |};
       comments := None;
    |}.

(** Payloads. *)
Definition reassignTo (i : Id) : DocPatch :=
  {| p_authorId := Some (Some (AsString i)); p_slug := None;
     p_state := None; p_fields := ∅ |}.

Definition accept : CommentPatch := statePatch ACCEPTED.
End Sample.

(** * The other operations of the class

    [getOne], [create], [getComment], [getComments] and [newComment], with
    what they need of the storage layer beyond the collaborators above. *)

(** [IPreComment] *)
Record IPreComment := {
  pc_title : string;
  pc_body : string;
  pc_document : Id;
  pc_user : option Id;
  pc_parent : option Id;
}.

(** [data.user = v] *)
Definition set_pc_user (v : Id) (data : IPreComment) : IPreComment :=
  {| pc_title := pc_title data;
     pc_body := pc_body data;
     pc_document := pc_document data;
     pc_user := Some v;
     pc_parent := pc_parent data;
  |}.

(** What the storage layer does on an insertion and on a sorted listing of
    comments, and what [handleModelErrors] makes of an insertion it
    refuses.  (The trace has no entry for an insertion, so a refused
    insertion is told by the answer of the storage call, not by a raised
    call.) *)
Class Persistence (ERole PageData : Type) := {
  (** the identifier given to a new record of a collection holding the
      given identifiers *)
  newObjectId : list Id → Id;
  (** [GenerateSlug(doc, Model)] of [@/core/helpers/general], run by the
      [save] hook *)
  GenerateSlug : DocPatch → list DocRecord → string;
  (** whether the storage layer raises on the insertion of a document, or
      of a comment, into the given collection *)
  documentRefused : DocPatch → list DocRecord → bool;
  commentRefused : IPreComment → list Comment → bool;
  (** [handleModelErrors(error)] for the error of a refused insertion *)
  handleInsertionError : ∀ D : Type, ModelName → Result ERole D PageData;
  (** the order [.sort(spec)] puts the comments in *)
  sortComments : string → list Comment → list Comment;
}.

Section OtherMethods.
Context {ERole JsNumber PageData : Type}.
Context `{!EqDecision ERole, !RoleEnum ERole}.
Context `{!Collaborators ERole JsNumber PageData}.
Context `{!Persistence ERole PageData}.

(** The document [this.Model.create(data)] stores: the identifier is the
    storage layer's; [state] defaults to PUBLISHED; the schema has the path
    [slug] when [slugBase] is set, and the [save] hook then assigns it; the
    schema has the path [authorId], an ObjectId, unless creating is open to
    guests. *)
Definition newDocument (this : Doc ERole) (data : DocPatch) (coll : list DocRecord)
    : DocRecord :=
  {| d_id := newObjectId (d_id <$> coll);
     d_slug := if hasSlugPath this then Some (GenerateSlug data coll) else None;
     d_state := p_state data ?? PUBLISHED;
     d_authorId := if hasAuthorIdPath this
                   then castObjectId <$> (p_authorId data ?? None)
                   else None;
     d_fields := p_fields data;
  |}.

(** The comment [this.CommentModel.create(data)] stores: [user] is an
    ObjectId path; [state] defaults to waiting when comments need
    verification, to accepted otherwise. *)
Definition newCommentRecord (this : Doc ERole) (data : IPreComment)
    (coll : list Comment) : Comment :=
  {| c_id := newObjectId (c_id <$> coll);
     c_title := pc_title data;
     c_body := pc_body data;
     c_document := pc_document data;
     c_user := AsObjectId <$> pc_user data;
     c_parent := pc_parent data;
     c_state := if (needToVerify <$> comments (document this)) ?? false
                then WAITING else ACCEPTED;
  |}.

Section OtherCalls.
Context {R : Type}.

(** [this.Model.create(data)] inside [try]: [None] when the storage layer
    raises. *)
Definition Model_create (this : Doc ERole) (data : DocPatch)
    : M ERole R (option DocRecord) := λ w,
  if documentRefused data (docs w) then Next None w
  else Next (Some (newDocument this data (docs w)))
         (setDocs (docs w ++ [newDocument this data (docs w)]) w).

(** [this.CommentModel.create(data)] inside [try]: [None] when the storage
    layer raises, which it does for an empty [title] or [body], both
    required strings of the schema. *)
Definition CommentModel_create (this : Doc ERole) (data : IPreComment)
    : M ERole R (option Comment) := λ w,
  if bool_decide (pc_title data = "") || bool_decide (pc_body data = "")
     || commentRefused data (commentDocs w)
  then Next None w
  else Next (Some (newCommentRecord this data (commentDocs w)))
         (setCommentDocs (commentDocs w ++ [newCommentRecord this data (commentDocs w)]) w).

(** [this.Model.findById(i).populate("children")]: the lookup is made in
    the document collection.  The schema of [createModel] has the virtuals
    [comments] and [author] and no path [children]: when a document is
    found the storage layer is asked to populate a path the schema does
    not have, and raises (its [strictPopulate] default); when none is
    found there is nothing to populate. *)
Definition Model_findById (i : Id) : M ERole R (option DocRecord) :=
  document ← query (Call_findById TheModel i) (λ w, findById d_id i (docs w));
  match document with
  | Some _ => throw (Call_findById TheModel i)
  | None => mret None
  end.

(** [this.CommentModel.find(filter).skip(skip).limit(limit).sort(sort)]:
    the storage layer sorts before it skips and limits. *)
Definition CommentModel_find_sorted (filter : ICommentFilter) (sort : string)
    (skip limit : Z) : M ERole R (list CommentDoc) := λ w,
  if bool_decide (skip < 0)%Z
  then Throw (Call_find TheCommentModel skip limit)
         (record (Call_find TheCommentModel skip limit) w)
  else query (Call_find TheCommentModel skip limit) (λ w,
         (λ c, {| comment := c; children := None |}) <$>
           skipLimit skip limit
             (sortComments sort
                (List.filter (matchesCommentFilter filter) (commentDocs w)))) w.
End OtherCalls.

(** ** [getOne(identity, userId)] *)
Definition getOne (this : Doc ERole) (identity : string) (userId : option Id)
    : World ERole → Completion ERole (Result ERole DocRecord PageData) :=
  settle (
    (* check to see who can get document *)
    if_ (bool_decide (advanceOf this?.adv_getOne ≠ Some GEST))
      (if_ (falsy userId)
         (return_ (singleError "user" USER_NOT_FOUND None));;
       user ← User_findById userId;
       (* if user don't have perm return error *)
       allowed ← permissionsCheck_ (advanceOf this?.adv_getOne) (u_role <$> user);
       if_ (negb allowed)
         (return_ (singleError "user" NO_PERMISSION None)));;
    doc ← Model_findDocByIdentity identity;
    doc ← or_return doc
            (singleError "document" DOCUMENT_NOT_FOUND (Some ST_NOT_FOUND));
    return_ (success doc SUCCESS None)).

(** ** [create(data, authorId)] *)
Definition create (this : Doc ERole) (data : DocPatch) (authorId : option Id)
    : World ERole → Completion ERole (Result ERole DocRecord PageData) :=
  settle (
    (* check permissions needed to create *)
    if_ (bool_decide (advanceOf this?.adv_create ≠ Some GEST))
      (if_ (falsy authorId)
         (return_ (singleError "user" AUTHOR_NOT_FOUND None));;
       user ← User_findById authorId;
       user ← or_return user (singleError "user" AUTHOR_NOT_FOUND None);
       allowed ← permissionsCheck_ (advanceOf this?.adv_create) (Some (u_role user));
       if_ (negb allowed)
         (return_ (singleError "user" NO_PERMISSION None)));;
    (* save document to DB *)
    doc ← Model_create this data;
    match doc with
    | Some doc => return_ (success doc SUCCESS_CREATE (Some ST_SUCCESS_CREATE))
    | None => return_ (mret (handleInsertionError DocRecord TheModel))
    end).

(** ** [getComment(id)] *)
Definition getComment (this : Doc ERole) (i : Id)
    : World ERole → Completion ERole (Result ERole DocRecord PageData) :=
  settle (
    if_ (commentsDisabled this) disabled;;
    (* get comment *)
    comment_ ← Model_findById i;
    comment_ ← or_return comment_
                 (singleError "comment" C_COMMENT_NOT_FOUND (Some ST_NOT_FOUND));
    return_ (success comment_ C_SUCCESS (Some ST_SUCCESS))).

(** ** [getComments(page, limit, { filter, sort })]; the third argument
    defaults to [{ filter: {}, sort: "-createdAt" }]. *)
Definition getComments (this : Doc ERole) (page limit : JsNumber)
    (options : option (ICommentFilter * string))
    : World ERole → Completion ERole (Result ERole (list CommentDoc) PageData) :=
  settle (
    let '(filter, sort) :=
      options ?? ({| f_user := None; f_state := None; f_article := None |},
                  "-createdAt") in
    if_ (commentsDisabled this) disabled;;
    (* validate page and limit *)
    let page := ConvertToNaturalNumber page in
    let limit := ConvertToNaturalNumber limit in
    (* generate skip *)
    let skip := ((page - 1) * limit)%Z in
    try_catch
      ((* get comments *)
       comments ← CommentModel_find_sorted filter sort skip limit;
       (* get total number of comments base on filter *)
       totalComments ← CommentModel_countDocuments filter;
       (* get page data *)
       let pageData := getPageData page limit totalComments in
       return_ (mret (Paged (Named ST_SUCCESS) comments pageData)))
      handleModelErrors).

(** ** [newComment(data, userId)] *)
Definition newComment (this : Doc ERole) (data : IPreComment) (userId : Id)
    : World ERole → Completion ERole (Result ERole CommentDoc PageData) :=
  settle (
    if_ (commentsDisabled this) disabled;;
    (* check user id *)
    user ← User_findById (Some userId);
    user ← or_return user
             (singleError "user" C_USER_NOT_FOUND (Some ST_CONFLICT));
    (* set user for creating comment *)
    let data := set_pc_user (id user) data in
    comment_ ← CommentModel_create this data;
    match comment_ with
    | Some c =>
        return_ (success {| comment := c; children := None |}
                   C_SUCCESS_CREATE (Some ST_SUCCESS_CREATE))
    | None => return_ (mret (handleInsertionError CommentDoc TheCommentModel))
    end).
End OtherMethods.

(** ** Conditions of the other operations *)
Section OtherConditions.
Context {ERole JsNumber PageData : Type}.
Context `{!EqDecision ERole, !RoleEnum ERole}.
Context `{!Collaborators ERole JsNumber PageData}.

(** The gate of [getAll] and of [getOne], for the role [required] of the
    action, lets the caller through. *)
Definition readGatePasses (required : option ERole) (w : World ERole)
    (userId : option Id) : bool :=
  negb (bool_decide (required ≠ Some GEST))
  || negb (falsy userId)
     && permissionsCheck required (u_role <$> findUser w userId).

(** [getAll] clears its filter for the caller: drafts are listed. *)
Definition listsDrafts (this : Doc ERole) (w : World ERole) (userId : option Id) : bool :=
  bool_decide (role <$> advanceOf this?.adv_getDrafts = Some GEST)
  || negb (falsy userId)
     && permissionsCheck (role <$> advanceOf this?.adv_getDrafts)
          (u_role <$> findUser w userId).


(** The world a statement leaves. *)
Definition outcomeWorld {R A} (o : Outcome ERole R A) : World ERole :=
  match o with
  | Next _ w => w
  | Return _ w => w
  | Throw _ w => w
  end.

(** A computation that stores nothing: whatever it does, the collections
    and the user directory are as before. *)
Definition readOnly {R A} (m : M ERole R A) : Prop :=
  ∀ w, sameStorage w (outcomeWorld (m w)).

(** The call is a lookup in the user directory. *)
Definition isUserLookup (c : Call ERole) : bool :=
  match c with
  | Call_User_findById _ => true
  | _ => false
  end.

(** The call is a permission check. *)
Definition isPermissionCheck (c : Call ERole) : bool :=
  match c with
  | Call_permissionsCheck _ _ => true
  | _ => false
  end.
End OtherConditions.

(** * The storage layer of the deployment *)
Module DeploymentStore.
Import Deployment.

(** Identifiers are handed out by counting the records of the collection:
    the count, in 21 decimal digits after a fixed prefix. *)
Definition counted (ids : list Id) : Id :=
  let n := pretty (S (length ids)) in
  String.append "94b"
    (String.append (String.concat "" (replicate (21 - String.length n) "0")) n).

(** A reference that cannot be cast to an ObjectId. *)
Definition uncastable (r : option Id) : bool :=
  match r with
  | Some i => negb (isValidObjectId i)
  | None => false
  end.

(** The slug is the title of the payload. *)
Definition slugOfTitle (data : DocPatch) (coll : list DocRecord) : string :=
  (p_fields data !! "title") ?? "untitled".

(** An insertion is refused when a reference of the payload cannot be
    cast to an ObjectId (all kinds of the deployment have the path
    [authorId]), and for nothing else beyond the schema's required paths;
    comments keep the storage order. *)
#[export] Instance persistence : Persistence ERole PageData :=
  {| newObjectId := counted;
     GenerateSlug := slugOfTitle;
     documentRefused := λ data _,
       uncastable (refId <$> (p_authorId data ?? None));
     commentRefused := λ data _,
       uncastable (Some (pc_document data)) || uncastable (pc_user data)
       || uncastable (pc_parent data);
     handleInsertionError := λ D m, ModelError (Call_countDocuments m);
     sortComments := λ _ l, l;
  |}.
End DeploymentStore.

(** * A second sample: the default permissions

    A document kind configured without a permissions block, holding a
    draft and a published document. *)
Module Notes.
Import Deployment DeploymentStore Sample.

Definition idD : Id := "64b0000000000000000000d1".
Definition idP : Id := "64b0000000000000000000d2".

(** Both are the seller's. *)
Definition draft : DocRecord :=
  {| d_id := idD; d_slug := None; d_state := DRAFT;
     d_authorId := Some (AsObjectId seller); d_fields := {[ "title" := "plan" ]} |}.

Definition published : DocRecord :=
  {| d_id := idP; d_slug := None; d_state := PUBLISHED;
     d_authorId := Some (AsObjectId seller); d_fields := {[ "title" := "news" ]} |}.

Definition shelf : World ERole :=
  {| docs := [draft; published];
     commentDocs := commentDocs world;
     users := users world;
     calls := [];
  |}.

Definition plain : IDocOptions ERole :=
  {| docName := "Note";
     slugBase := None;
     permissions := None;
     comments := Some
       {| enabled := true;
          canWrite := SELLER_;
          needToVerify := true;
          canVerify := {| role := ADMIN_; public := true |};
          canMange := ADMIN_ |};
  |}.

Definition notes : Doc ERole := constructor plain.

(** The same kind without comments. *)
Definition silent : Doc ERole :=
  constructor {| docName := "Note"; slugBase := None; permissions := None;
                 comments := None |}.

(** A kind that only registered users read. *)
Definition members : Doc ERole :=
  constructor {| docName := "Post"; slugBase := None;
                 permissions := Some {| read := Some USER_; write := None;
                                        advance := None |};
                 comments := None |}.

Definition retitle (t : string) : DocPatch :=
  {| p_authorId := None; p_slug := None; p_state := None;
     p_fields := {[ "title" := t ]} |}.



Definition accepted : ICommentFilter :=
  {| f_user := None; f_state := Some ACCEPTED; f_article := None |}.

Definition remark (parent : option Id) : IPreComment :=
  {| pc_title := "remark"; pc_body := "text"; pc_document := idP;
     pc_user := Some admin; pc_parent := parent |}.
End Notes.

(** * Properties *)

#[global] Arguments findById : simpl never.
#[global] Arguments childrenOf : simpl never.
#[global] Arguments populate : simpl never.
#[global] Arguments cascadeStep : simpl never.
#[global] Arguments markChild : simpl never.

Create HintDb run.
#[global] Hint Unfold settle mbind M_bind mret M_ret return_ try_catch traced throw
  storage query if_ or_return permissionsCheck_ singleError success
  User_findById Model_findDocByIdentity CommentModel_findDocByIdentity
  Model_findByIdAndUpdate Model_deleteOne handleModelErrors disabled
  CommentModel_findById CommentModel_findByIdAndUpdate_new
  CommentModel_findByIdAndUpdate_state comment_deleteOne
  Model_create CommentModel_create Model_findById CommentModel_find_sorted : run.

(** ** The trace *)
Section Traces.
Context {ERole : Type}.

Lemma findUser_record (c : Call ERole) (w : World ERole) (i : option Id) :
  findUser (record c w) i = findUser w i.
Proof. by destruct i. Qed.

Lemma callsSince_two {R} (w : World ERole) (r : R) (c1 c2 : Call ERole) :
  callsSince w (Resolved r (record c2 (record c1 w))) = [c1; c2].
Proof.
  unfold callsSince; cbn. rewrite <- app_assoc. by rewrite drop_app_length.
Qed.
End Traces.

(** Running a method symbolically: unfold the monad and the calls, and
    let the storage layer answer the calls it is assumed to answer. *)
Ltac answered :=
  match goal with
  | H : answers ?c |- context [storageFaults ?c' ?w] =>
      unify c c'; rewrite (H w : storageFaults c' w = false)
  end.

Ltac steps :=
  autounfold with run;
  repeat first [answered | rewrite findUser_record | progress cbn].

(** The calls a run has added to the trace. *)
Ltac trace_eq :=
  unfold callsSince; cbn; rewrite <- ?app_assoc;
  first [by rewrite drop_app_length | by rewrite drop_all].

Ltac trace_prefix :=
  unfold callsSince; cbn; rewrite <- ?app_assoc, ?drop_app_length; cbn;
  by eexists.

(** Case analysis on the next condition of a method, fault checks
    included. *)
Ltac branch :=
  match goal with
  | |- context [storageFaults ?c ?w] => destruct (storageFaults c w) eqn:?
  | |- context [bool_decide (?r ≠ Some GEST)] =>
      destruct (bool_decide (r ≠ Some GEST)) eqn:?
  | |- context [falsy ?i] => destruct (falsy i) eqn:?
  | |- context [commentsDisabled ?t] => destruct (commentsDisabled t) eqn:?
  | |- context [not_ ?x] => destruct (not_ x) eqn:?
  | |- context [findUser ?w ?i] => destruct (findUser w i) eqn:?
  | |- context [users ?w !! ?i] => destruct (users w !! i) eqn:?
  | |- context [permissionsCheck ?a ?b] => destruct (permissionsCheck a b) eqn:?
  | |- context [strictNotEqual ?a ?b] => destruct (strictNotEqual a b) eqn:?
  | |- context [p_authorId ?d] => destruct (p_authorId d) eqn:?
  | |- context [bool_decide (?r = Some GEST)] =>
      destruct (bool_decide (r = Some GEST)) eqn:?
  | |- context [bool_decide (?a < ?b)%Z] =>
      destruct (bool_decide (a < b)%Z) eqn:?
  | |- context [findDocByIdentity ?R ?k ?s ?i ?l] =>
      destruct (findDocByIdentity R k s i l) eqn:?
  | |- context [findById ?k ?i ?l] => destruct (findById k i l) eqn:?
  | |- context [documentRefused ?d ?l] => destruct (documentRefused d l) eqn:?
  | |- context [commentRefused ?d ?l] => destruct (commentRefused d l) eqn:?
  end.

(** ** Collections *)
Section CollectionFacts.
Context {R : Type} (key : R → Id).

Lemma findById_Some (i : Id) (coll : list R) (r : R) :
  findById key i coll = Some r → r ∈ coll ∧ key r = i.
Proof.
  unfold findById. intros H. apply find_some in H as [Hin Hk].
  split; [by apply list_elem_of_In|]. by apply bool_decide_eq_true in Hk.
Qed.

(** Reading a record back after its update. *)
Lemma findById_updateById (i : Id) (f : R → R) (coll : list R) :
  (∀ r, key (f r) = key r) →
  findById key i (updateById key i f coll) = f <$> findById key i coll.
Proof.
  intros Hf. unfold findById. induction coll as [|r rest IH]; [done|]. simpl.
  destruct (bool_decide (key r = i)) eqn:Hk; simpl.
  - rewrite Hf, Hk. done.
  - by rewrite Hk.
Qed.

Lemma updateById_absent (i : Id) (f : R → R) (coll : list R) :
  (∀ r, r ∈ coll → key r ≠ i) → updateById key i f coll = coll.
Proof.
  induction coll as [|r rest IH]; [done|]. intros H. simpl.
  rewrite bool_decide_false by (apply H; left).
  f_equal. apply IH. intros x Hx. apply H. by right.
Qed.

(** With unique identifiers, updating the record of an identifier is
    updating every record that carries it. *)
Lemma updateById_fmap (i : Id) (f : R → R) (coll : list R) :
  NoDup (key <$> coll) →
  updateById key i f coll
  = (λ r, if bool_decide (key r = i) then f r else r) <$> coll.
Proof.
  induction coll as [|r rest IH]; [done|].
  rewrite fmap_cons, NoDup_cons. intros [Hr Hnd]. simpl.
  destruct (bool_decide (key r = i)) eqn:Hk.
  - apply bool_decide_eq_true in Hk. f_equal.
    rewrite <- (list_fmap_id rest) at 1. apply list_fmap_ext.
    intros ? x Hx. simpl. rewrite bool_decide_false; [done|].
    intros Hkx. apply Hr. rewrite Hk, <- Hkx.
    apply list_elem_of_fmap. exists x. split; [done|].
    by eapply list_elem_of_lookup_2.
  - f_equal. by apply IH.
Qed.

(** With unique identifiers, removing the record of an identifier leaves
    exactly the records that do not carry it. *)
Lemma elem_of_removeById (i : Id) (coll : list R) (x : R) :
  NoDup (key <$> coll) →
  x ∈ removeById key i coll ↔ x ∈ coll ∧ key x ≠ i.
Proof.
  induction coll as [|r rest IH].
  - intros _. simpl. split; [by intros ?%elem_of_nil|by intros [?%elem_of_nil _]].
  - rewrite fmap_cons, NoDup_cons. intros [Hr Hnd]. simpl.
    destruct (bool_decide (key r = i)) eqn:Hk.
    + apply bool_decide_eq_true in Hk. split.
      * intros Hx. split; [by right|]. intros Hkx. apply Hr.
        rewrite Hk, <- Hkx. apply list_elem_of_fmap. by exists x.
      * intros [Hx Hkx]. apply elem_of_cons in Hx as [->|Hx]; [congruence|done].
    + apply bool_decide_eq_false in Hk. rewrite !elem_of_cons, IH by done.
      split.
      * intros [->|[? ?]]; [by split; [left|]|by split; [right|]].
      * intros [[->|?] ?]; [by left|by right].
Qed.

Lemma NoDup_removeById (i : Id) (coll : list R) :
  NoDup (key <$> coll) → NoDup (key <$> removeById key i coll).
Proof.
  induction coll as [|r rest IH]; [done|].
  rewrite fmap_cons, NoDup_cons. intros [Hr Hnd]. simpl.
  destruct (bool_decide (key r = i)) eqn:Hk; [done|].
  rewrite fmap_cons, NoDup_cons. split; [|by apply IH].
  intros (x & Hkx & Hx)%list_elem_of_fmap. apply Hr.
  apply list_elem_of_fmap. exists x. split; [done|].
  apply (elem_of_removeById i rest x Hnd) in Hx. by destruct Hx.
Qed.

(** With unique identifiers, a record is determined by its identifier. *)
Lemma NoDup_key_inj (coll : list R) (x y : R) :
  NoDup (key <$> coll) → x ∈ coll → y ∈ coll → key x = key y → x = y.
Proof.
  induction coll as [|r rest IH]; [by intros _ ?%elem_of_nil|].
  rewrite fmap_cons, NoDup_cons. intros [Hr Hnd] Hx Hy Hk.
  apply elem_of_cons in Hx as [->|Hx]; apply elem_of_cons in Hy as [->|Hy].
  - done.
  - exfalso. apply Hr. rewrite Hk. apply list_elem_of_fmap. by exists y.
  - exfalso. apply Hr. rewrite <- Hk. apply list_elem_of_fmap. by exists x.
  - by apply IH.
Qed.
End CollectionFacts.

Section Constructor.
Context {ERole : Type} `{!RoleEnum ERole}.

Lemma processPermissions_populated (p : option (Permissions ERole)) :
  ∃ adv, advance (processPermissions p) = Some adv ∧ populated adv.
Proof.
  eexists; split; [reflexivity|].
  repeat split; by eexists.
Qed.

(** On a configuration whose [advance] is populated the constructor's
    assignment changes nothing. *)
Lemma processPermissions_fixed (p : Permissions ERole) (adv : Advance ERole) :
  advance p = Some adv → populated adv → processPermissions (Some p) = p.
Proof.
  destruct p as [r w a]; simpl; intros ->.
  destruct adv as [ga go cr ed de gd]. unfold populated; simpl.
  intros ([? ->] & [? ->] & [? ->] & [? ->] & [? ->] & [? ->]).
  reflexivity.
Qed.

(** C8: for every raw configuration the constructor fills each
    advance-permission field by the precedence explicit field, else
    shorthand, else default: getAll and getOne fall back to [read] and
    then to the guest role; create and the roles of edit, delete and
    getDrafts fall back to [write] and then to [SELLER]; an explicit pair
    is kept whole; and after construction every field is populated. *)
Theorem constructor_fills_advance (raw : IDocOptions ERole) :
  let p := permissions raw in
  ∃ adv, advanceOf (constructor raw) = Some adv
    ∧ byPrecedence (p?.advance?.adv_getAll) (p?.read) GEST (adv_getAll adv)
    ∧ byPrecedence (p?.advance?.adv_getOne) (p?.read) GEST (adv_getOne adv)
    ∧ byPrecedence (p?.advance?.adv_create) (p?.write) SELLER (adv_create adv)
    ∧ byPrecedence (role <$> p?.advance?.adv_edit) (p?.write) SELLER
        (role <$> adv_edit adv)
    ∧ byPrecedence (role <$> p?.advance?.adv_delete) (p?.write) SELLER
        (role <$> adv_delete adv)
    ∧ byPrecedence (role <$> p?.advance?.adv_getDrafts) (p?.write) SELLER
        (role <$> adv_getDrafts adv)
    ∧ byPrecedence (p?.advance?.adv_edit) None
        {| role := p?.write ?? SELLER; public := true |} (adv_edit adv)
    ∧ byPrecedence (p?.advance?.adv_delete) None
        {| role := p?.write ?? SELLER; public := false |} (adv_delete adv)
    ∧ byPrecedence (p?.advance?.adv_getDrafts) None
        {| role := p?.write ?? SELLER; public := true |} (adv_getDrafts adv)
    ∧ populated adv.
Proof.
  intros p. eexists. split; [reflexivity|]. simpl. fold p.
  unfold byPrecedence.
  repeat split; try (by eexists);
    try (destruct (p?.advance?.adv_getAll));
    try (destruct (p?.advance?.adv_getOne));
    try (destruct (p?.advance?.adv_create));
    try (destruct (p?.advance?.adv_edit));
    try (destruct (p?.advance?.adv_delete));
    try (destruct (p?.advance?.adv_getDrafts));
    try (destruct (p?.read)); try (destruct (p?.write)); reflexivity.
Qed.

(** C9: the constructor's normalisation is idempotent: it leaves a
    configuration whose advance-permission fields are all populated as it
    is, and normalising a normalised configuration changes nothing. *)
Theorem normalize_idempotent (raw : IDocOptions ERole) :
  (∀ p adv,
     permissions raw = Some p → advance p = Some adv → populated adv →
     normalize raw = raw)
  ∧ normalize (normalize raw) = normalize raw.
Proof.
  split.
  - intros p adv Hp Hadv Hpop. destruct raw as [n sl pr co]. simpl in Hp. subst pr.
    unfold normalize; simpl.
    by rewrite (processPermissions_fixed _ adv Hadv Hpop).
  - destruct (processPermissions_populated (permissions raw)) as (adv & Hadv & Hpop).
    unfold normalize; simpl.
    by rewrite (processPermissions_fixed _ adv Hadv Hpop).
Qed.
End Constructor.

Section DocumentOperations.
Context {ERole JsNumber PageData : Type}.
Context `{!EqDecision ERole, !RoleEnum ERole}.
Context `{!Collaborators ERole JsNumber PageData}.

Ltac unfold_conditions :=
  unfold actorResolves, actorOf, roleCheckPasses, ownershipCheckPasses, needsActor in *.

(** How a branch of the checks ends: with one answer and one trace, or,
    past the checks, with no error of theirs and their calls made. *)
Ltac checked :=
  first
    [ done
    | split; [done|trace_eq]
    | split; [by intros ? ? ? Heq; simplify_eq|trace_prefix] ].

Lemma edit_checks_in_order this identity data editorId w :
  answers (Call_findDocByIdentity TheModel identity) →
  answers (Call_User_findById editorId) →
  checksInOrder (advanceOf this?.adv_edit) identity editorId w
    (edit this identity data editorId w).
Proof.
  intros Hdoc Hactor.
  unfold checksInOrder, checksCalls, actorLookup, roleCheck, edit.
  unfold_conditions. steps.
  destruct (findDocByIdentity _ _ _ _ _) as [d|] eqn:Hd; steps.
  - repeat (branch; steps); checked.
  - split; [done|]. apply callsSince_two.
Qed.

Lemma delete_checks_in_order this identity userId w :
  answers (Call_findDocByIdentity TheModel identity) →
  answers (Call_User_findById userId) →
  checksInOrder (advanceOf this?.adv_delete) identity userId w
    (delete this identity userId w).
Proof.
  intros Hdoc Hactor.
  unfold checksInOrder, checksCalls, actorLookup, roleCheck, delete.
  unfold_conditions. steps.
  destruct (findDocByIdentity _ _ _ _ _) as [d|] eqn:Hd; steps.
  - repeat (branch; steps); checked.
  - split; [done|]. apply callsSince_two.
Qed.

(** What [edit] does with a payload that names a new author, once the
    record exists and the actor has passed. *)
Lemma edit_reassignment this identity data editorId w document authorId :
  let permissions := advanceOf this?.adv_edit in
  let run := edit this identity data editorId w in
  let passed := checksCalls permissions identity editorId w in
  let lookup := Call_User_findById (refId <$> authorId) in
  answers (Call_findDocByIdentity TheModel identity) →
  answers (Call_User_findById editorId) →
  answers lookup →
  answers (Call_findByIdAndUpdate TheModel (d_id document)) →
  findDocByIdentity DocRecord d_id d_slug identity (docs w) = Some document →
  actorResolves permissions w editorId = true →
  roleCheckPasses permissions (actorOf permissions w editorId) = true →
  ownershipCheckPasses permissions document (actorOf permissions w editorId) = true →
  p_authorId data = Some authorId →
  match findUser w (refId <$> authorId) with
  | None =>
      resultOf run = Some (SingleError "new_author" USER_NOT_FOUND (Some ST_NOT_FOUND))
      ∧ sameStorage w (worldOf run)
      ∧ callsSince w run
        = passed
          ++ [lookup; Call_singleError "new_author" USER_NOT_FOUND (Some ST_NOT_FOUND)]
  | Some newAuthor =>
      let check :=
        Call_permissionsCheck (advanceOf this?.adv_create) (Some (u_role newAuthor)) in
      if permissionsCheck (advanceOf this?.adv_create) (Some (u_role newAuthor))
      then resultOf run
           = Some (Success (findById d_id (d_id document) (docs w))
                     SUCCESS_EDIT (Some ST_SUCCESS_CREATE))
           ∧ callsSince w run
             = passed
               ++ [lookup; check; Call_findByIdAndUpdate TheModel (d_id document);
                   Call_success SUCCESS_EDIT (Some ST_SUCCESS_CREATE)]
      else resultOf run
           = Some (SingleError "new_author" NEW_AUTHOR_IS_NOT_VALID None)
           ∧ sameStorage w (worldOf run)
           ∧ callsSince w run
             = passed
               ++ [lookup; check;
                   Call_singleError "new_author" NEW_AUTHOR_IS_NOT_VALID None]
  end.
Proof.
  intros permissions run passed lookup Hdoc Hactor Hnew Hupdate Hd Ha Hr Ho Hk.
  subst permissions run passed lookup.
  unfold edit, checksCalls, actorLookup, roleCheck. unfold_conditions.
  steps. rewrite Hd, Hk. steps.
  repeat (branch; steps); cbn in *; rewrite ?negb_true_iff in *; try congruence.
  all: simplify_eq; repeat split; try done; trace_eq.
Qed.

(** C2: when one request violates several checks at once, [edit] and
    [delete] report them in the fixed order record existence, role
    permission, ownership and (for [edit]) the new author of a
    reassignment.  The answer tells which check failed first, and the
    calls made tell where it stands: on an identity that resolves to no
    record the not-found error is returned, the user directory and the
    permission check not having been called; a failed role check is
    answered straight after the call of the permission check, whatever
    the ownership; a failed ownership check is answered after the call of
    the permission check and before the new author is looked up; the new
    author is looked up, and then checked against the create permission,
    after all of them. *)
Theorem write_checks_in_order (this : Doc ERole) (identity : string)
    (data : DocPatch) (actorId : option Id) (w : World ERole) :
  answers (Call_findDocByIdentity TheModel identity) →
  answers (Call_User_findById actorId) →
  checksInOrder (advanceOf this?.adv_edit) identity actorId w
    (edit this identity data actorId w)
  ∧ reassignmentCheckedLast this identity data actorId w
      (edit this identity data actorId w)
  ∧ checksInOrder (advanceOf this?.adv_delete) identity actorId w
      (delete this identity actorId w).
Proof.
  intros Hdoc Hactor. split; [by apply edit_checks_in_order|].
  split; [|by apply delete_checks_in_order].
  unfold reassignmentCheckedLast.
  intros document authorId Hd Ha Hr Ho Hk Hnew Hupdate.
  pose proof (edit_reassignment this identity data actorId w document authorId
                Hdoc Hactor Hnew Hupdate Hd Ha Hr Ho Hk) as H.
  cbv zeta in *.
  destruct (findUser w (refId <$> authorId)) as [newAuthor|];
    [|by destruct H as (? & _ & ?)].
  destruct (permissionsCheck _ _).
  - destruct H as (? & ?). split; [by eexists|done].
  - by destruct H as (? & _ & ?).
Qed.

(** C7: a payload of [edit] that reassigns [authorId] is refused with the
    not-found error on [new_author] when the new author does not exist,
    and with the error NEW_AUTHOR_IS_NOT_VALID when the new author does
    not satisfy the create permission (the edit permission is not
    consulted for the new author); on either error nothing stored has
    changed, the record and its author included; a new author that
    exists and satisfies the create permission is accepted. *)
Theorem edit_reassignment_checked (this : Doc ERole) (identity : string)
    (data : DocPatch) (editorId : option Id) (w : World ERole)
    (document : DocRecord) (authorId : option JsRef) :
  let permissions := advanceOf this?.adv_edit in
  let run := edit this identity data editorId w in
  answers (Call_findDocByIdentity TheModel identity) →
  answers (Call_User_findById editorId) →
  answers (Call_User_findById (refId <$> authorId)) →
  answers (Call_findByIdAndUpdate TheModel (d_id document)) →
  findDocByIdentity DocRecord d_id d_slug identity (docs w) = Some document →
  actorResolves permissions w editorId = true →
  roleCheckPasses permissions (actorOf permissions w editorId) = true →
  ownershipCheckPasses permissions document (actorOf permissions w editorId) = true →
  p_authorId data = Some authorId →
  (findUser w (refId <$> authorId) = None →
     resultOf run = Some (SingleError "new_author" USER_NOT_FOUND (Some ST_NOT_FOUND))
     ∧ docs (worldOf run) = docs w)
  ∧ (∀ newAuthor,
       findUser w (refId <$> authorId) = Some newAuthor →
       permissionsCheck (advanceOf this?.adv_create) (Some (u_role newAuthor)) = false →
       resultOf run = Some (SingleError "new_author" NEW_AUTHOR_IS_NOT_VALID None)
       ∧ docs (worldOf run) = docs w)
  ∧ (∀ newAuthor,
       findUser w (refId <$> authorId) = Some newAuthor →
       permissionsCheck (advanceOf this?.adv_create) (Some (u_role newAuthor)) = true →
       ∃ newDoc, resultOf run = Some (Success newDoc SUCCESS_EDIT (Some ST_SUCCESS_CREATE))).
Proof.
  intros permissions run Hdoc Hactor Hnew Hupdate Hd Ha Hr Ho Hk.
  pose proof (edit_reassignment this identity data editorId w document authorId
                Hdoc Hactor Hnew Hupdate Hd Ha Hr Ho Hk) as H.
  cbv zeta in H. fold run in H.
  split; [|split].
  - intros Hn. rewrite Hn in H. by destruct H as (? & (? & _) & _).
  - intros newAuthor Hn Hc. rewrite Hn, Hc in H. by destruct H as (? & (? & _) & _).
  - intros newAuthor Hn Hc. rewrite Hn, Hc in H. destruct H as (? & _). by eexists.
Qed.

(** What [delete] removes once the record exists and the caller has
    passed the checks: the first record of the collection, whichever
    record the identity resolved to. *)
Lemma delete_removes_first this identity userId w document :
  let permissions := advanceOf this?.adv_delete in
  let run := delete this identity userId w in
  answers (Call_findDocByIdentity TheModel identity) →
  answers (Call_User_findById userId) →
  answers (Call_deleteOne TheModel None) →
  findDocByIdentity DocRecord d_id d_slug identity (docs w) = Some document →
  actorResolves permissions w userId = true →
  roleCheckPasses permissions (actorOf permissions w userId) = true →
  ownershipCheckPasses permissions document (actorOf permissions w userId) = true →
  resultOf run = Some (Success document SUCCESS_DELETE (Some ST_SUCCESS))
  ∧ docs (worldOf run) = removeFirst (docs w).
Proof.
  intros permissions run Hdoc Hactor Hdel Hd Ha Hr Ho. subst permissions run.
  unfold delete. unfold_conditions. steps. rewrite Hd. steps.
  repeat (branch; steps); try done; cbn in *; try congruence.
  all: rewrite ?negb_true_iff in *; congruence.
Qed.

(** C10, as amended: when [getAll] requires more than the guest role, an
    absent or empty [userId] is answered with the user-not-found error; a
    non-empty [userId] that the user directory looks up, and under which
    it holds nobody, is answered with the no-permission error, the
    permission check denying an actor without a role; on a [userId] the
    user directory raises on (one that is not in the identifier format)
    the call is rejected, the lookup standing outside any [try]; and the
    user-not-found error is returned only for an absent or empty
    [userId]. *)
Theorem getAll_unknown_user (this : Doc ERole) (page limit : JsNumber)
    (sort : option (list string)) (userId : option Id) (w : World ERole) :
  let run := getAll this page limit sort userId w in
  advanceOf this?.adv_getAll ≠ Some GEST →
  (falsy userId = true →
     resultOf run = Some (SingleError "user" USER_NOT_FOUND None))
  ∧ (falsy userId = false →
     answers (Call_User_findById userId) →
     findUser w userId = None →
     permissionsCheck (advanceOf this?.adv_getAll) None = false →
     resultOf run = Some (SingleError "user" NO_PERMISSION None))
  ∧ (falsy userId = false →
     storageFaults (Call_User_findById userId) w = true →
     run = Rejected (Call_User_findById userId) (record (Call_User_findById userId) w))
  ∧ (∀ field status,
       resultOf run = Some (SingleError field USER_NOT_FOUND status) →
       falsy userId = true).
Proof.
  intros run Hg. subst run. unfold getAll, Model_find, Model_countDocuments.
  steps. rewrite (bool_decide_true _ Hg). steps.
  destruct (falsy userId) eqn:Hf; steps.
  - repeat split; try done.
  - split; [done|]. split; [|split].
    + intros _ Hactor Hu Hp. steps. rewrite Hu. steps. rewrite Hp. by steps.
    + intros _ Hfault. rewrite Hfault. by steps.
    + intros field status.
      repeat (branch; steps); try done.
Qed.
End DocumentOperations.

Section CommentOperations.
Context {ERole JsNumber PageData : Type}.
Context `{!EqDecision ERole, !RoleEnum ERole}.
Context `{!Collaborators ERole JsNumber PageData}.

(** The loop over the children, folded: with unique identifiers it marks
    exactly the stored comments whose identifier is a child's. *)
Lemma cascade_fold (children coll : list Comment) :
  NoDup (c_id <$> coll) →
  foldl cascadeStep coll children
  = (λ x, if bool_decide (c_id x ∈ c_id <$> children)
          then applyCommentPatch (statePatch PARENT_DELETED) x else x) <$> coll.
Proof.
  revert coll. induction children as [|a children IH]; intros coll Hnd.
  - rewrite <- (list_fmap_id coll) at 1. by apply list_fmap_ext.
  - cbn [foldl]. unfold cascadeStep at 2. rewrite updateById_fmap by done.
    rewrite IH.
    + rewrite <- list_fmap_compose. apply list_fmap_ext.
      intros ? x _. simpl.
      destruct (bool_decide (c_id x = c_id a)) eqn:Ha; simpl.
      * apply bool_decide_eq_true in Ha.
        rewrite (bool_decide_true (c_id x ∈ _ :: _)) by (rewrite Ha; left).
        by destruct (bool_decide _).
      * apply bool_decide_eq_false in Ha.
        destruct (bool_decide (c_id x ∈ c_id <$> children)) eqn:Hc.
        -- apply bool_decide_eq_true in Hc.
           by rewrite (bool_decide_true (c_id x ∈ _ :: _)) by (by right).
        -- apply bool_decide_eq_false in Hc.
           rewrite (bool_decide_false (c_id x ∈ _ :: _)); [done|].
           by intros [?|?]%elem_of_cons.
    + rewrite <- list_fmap_compose.
      erewrite list_fmap_ext; [exact Hnd|].
      intros ? x _. simpl. by destruct (bool_decide _).
Qed.

(** Deleting a comment and marking the children it was loaded with
    leaves the one-level cascade of the remaining comments. *)
Lemma cascade_children (i : Id) (coll : list Comment) :
  NoDup (c_id <$> coll) →
  foldl cascadeStep (removeById c_id i coll) (childrenOf i coll)
  = markChild i <$> removeById c_id i coll.
Proof.
  intros Hnd. rewrite cascade_fold by (by apply NoDup_removeById).
  apply list_fmap_ext. intros ? x Hx. unfold markChild.
  apply list_elem_of_lookup_2, (elem_of_removeById c_id i coll x Hnd) in Hx as [Hx _].
  rewrite (bool_decide_ext (c_id x ∈ c_id <$> childrenOf i coll)
             (c_parent x = Some i)); [done|].
  rewrite list_elem_of_fmap. split.
  - intros (y & Hk & Hy). unfold childrenOf in Hy.
    apply list_elem_of_In, filter_In in Hy as [Hy Hp].
    apply list_elem_of_In in Hy. apply bool_decide_eq_true in Hp.
    by rewrite (NoDup_key_inj c_id coll x y Hnd Hx Hy Hk).
  - intros Hp. exists x. split; [done|]. unfold childrenOf.
    apply list_elem_of_In, filter_In. split; [by apply list_elem_of_In|].
    by apply bool_decide_eq_true.
Qed.

Lemma for_of_cons {R A} (x : A) (l : list A) (body : A → M ERole R unit)
    (w : World ERole) :
  for_of (x :: l) body w
  = match body x w with
    | Next _ w' => for_of l body w'
    | Return r w' => Return r w'
    | Throw e w' => Throw e w'
    end.
Proof. reflexivity. Qed.

(** One turn of the loop of [deleteComment]. *)
Lemma cascade_turn {R} (child : Comment) (w : World ERole) :
  (CommentModel_findByIdAndUpdate_state (R:=R) (c_id child) PARENT_DELETED;;
   mret tt) w
  = if storageFaults (Call_findByIdAndUpdate TheCommentModel (c_id child)) w
    then Throw (Call_findByIdAndUpdate TheCommentModel (c_id child))
           (record (Call_findByIdAndUpdate TheCommentModel (c_id child)) w)
    else Next tt
           (setCommentDocs (cascadeStep (commentDocs w) child)
              (record (Call_findByIdAndUpdate TheCommentModel (c_id child)) w)).
Proof. autounfold with run. by destruct (storageFaults _ w). Qed.

(** The loop of [deleteComment]: it never returns from the method, and
    when it completes the collection has taken one step per child. *)
Lemma for_of_cascade {R} (l : list Comment) (w : World ERole) :
  match for_of (R:=R) l (λ child,
          CommentModel_findByIdAndUpdate_state (c_id child) PARENT_DELETED;;
          mret tt) w with
  | Next _ w1 =>
      commentDocs w1 = foldl cascadeStep (commentDocs w) l
      ∧ docs w1 = docs w ∧ users w1 = users w
  | Return _ _ => False
  | Throw _ _ => True
  end.
Proof.
  revert w. induction l as [|child l IH]; intros w; [done|].
  rewrite for_of_cons. cbv beta. rewrite cascade_turn.
  destruct (storageFaults _ w); [done|].
  match goal with |- match for_of l _ ?w1 with _ => _ end =>
    specialize (IH w1) end.
  by destruct (for_of l _ _).
Qed.

Lemma for_of_cascade_run {R} (l : list Comment) (w : World ERole) :
  (∀ child, child ∈ l → answers (Call_findByIdAndUpdate TheCommentModel (c_id child))) →
  ∃ w1, for_of (R:=R) l (λ child,
          CommentModel_findByIdAndUpdate_state (c_id child) PARENT_DELETED;;
          mret tt) w = Next tt w1
    ∧ calls w1
      = calls w
        ++ ((λ child, Call_findByIdAndUpdate TheCommentModel (c_id child)) <$> l).
Proof.
  revert w. induction l as [|child l IH]; intros w Hkids.
  - exists w. split; [done|]. by rewrite app_nil_r.
  - rewrite for_of_cons. cbv beta. rewrite cascade_turn.
    rewrite (Hkids child) by left.
    match goal with |- context [for_of l _ ?w1] =>
      destruct (IH w1) as (w2 & -> & Hc) end.
    { intros x Hx. apply Hkids. by right. }
    exists w2. split; [done|]. rewrite Hc. cbn. by rewrite <- app_assoc.
Qed.

Lemma cascaded_markChild (i : Id) (coll : list Comment) :
  NoDup (c_id <$> coll) →
  cascaded i coll (markChild i <$> removeById c_id i coll).
Proof.
  intros Hnd.
  assert (Hin : ∀ y, y ∈ markChild i <$> removeById c_id i coll
                     ↔ ∃ x, x ∈ coll ∧ c_id x ≠ i ∧ y = markChild i x).
  { intros y. rewrite list_elem_of_fmap. split.
    - intros (x & -> & Hx). apply (elem_of_removeById c_id i coll x Hnd) in Hx.
      exists x. by destruct Hx.
    - intros (x & Hx & Hk & ->). exists x. split; [done|].
      by apply (elem_of_removeById c_id i coll x Hnd). }
  assert (Hid : ∀ x, c_id (markChild i x) = c_id x).
  { intros x. unfold markChild. by destruct (bool_decide _). }
  assert (Hpar : ∀ x, c_parent (markChild i x) = c_parent x).
  { intros x. unfold markChild. by destruct (bool_decide _). }
  repeat split.
  - destruct (findById c_id i _) as [y|] eqn:Hy; [|done].
    apply findById_Some in Hy as [Hy Hk].
    apply Hin in Hy as (x & _ & Hne & ->). by rewrite Hid in Hk.
  - intros x Hx Hk Hp. apply Hin. exists x. repeat split; try done.
    unfold markChild. by rewrite bool_decide_true.
  - intros y Hy Hp. apply Hin in Hy as (x & _ & _ & ->).
    rewrite Hpar in Hp. unfold markChild. by rewrite bool_decide_true.
  - intros x Hx Hk Hp. apply Hin. exists x. repeat split; try done.
    unfold markChild. by rewrite bool_decide_false.
  - intros x g Hx Hp Hk Hg Hpg Hkg. apply Hin. exists g. repeat split; try done.
    unfold markChild. rewrite bool_decide_false; [done|]. congruence.
  - intros y Hy. by apply Hin.
Qed.

(** Whenever [deleteComment] hands back a success, the comment was
    stored, it has been removed and its loaded children have been
    stepped through. *)
Lemma deleteComment_success_inv this commentId editorId w cd message status w' :
  deleteComment this commentId editorId w = Resolved (Success cd message status) w' →
  ∃ c, findById c_id commentId (commentDocs w) = Some c
    ∧ cd = {| comment := c; children := Some (childrenOf commentId (commentDocs w)) |}
    ∧ commentDocs w'
      = foldl cascadeStep (removeById c_id commentId (commentDocs w))
          (childrenOf commentId (commentDocs w))
    ∧ docs w' = docs w ∧ users w' = users w.
Proof.
  intros H. unfold deleteComment in H. autounfold with run in H.
  destruct (commentsDisabled this); cbn in H; [discriminate|].
  destruct (storageFaults _ _) in H; cbn in H; [discriminate|].
  destruct (users w !! editorId) as [r|] eqn:Hu; cbn in H; [|discriminate].
  destruct (storageFaults _ _) in H; cbn in H; [discriminate|].
  destruct (findById c_id commentId (commentDocs w)) as [c|] eqn:Hc;
    cbn in H; [|discriminate].
  pose proof (findById_Some _ _ _ _ Hc) as [_ Hk].
  unfold populate in H; cbn in H. rewrite Hk in H.
  repeat match type of H with
         | context [if ?b then _ else _] => destruct b; cbn in H; try discriminate
         end.
  all: match type of H with context [for_of ?l ?b ?w1] =>
         pose proof (for_of_cascade (R:=Result ERole CommentDoc PageData) l w1) as Hloop;
         set (x := for_of l b w1) in H;
         change (for_of l _ w1) with x in Hloop; destruct x
       end; try done; cbn in H, Hloop.
  all: simplify_eq; exists c; cbn; destruct Hloop as (? & ? & ?); by repeat split.
Qed.

(** [deleteComment] on a stored comment, for an editor the user
    directory holds: it hands back a success whatever the permission
    check says, and these are the calls it makes. *)
Lemma deleteComment_run this commentId editorId w u c :
  let run := deleteComment this commentId editorId w in
  let foreign := strictNotEqual (c_user c) (Some (id u)) in
  let denied :=
    foreign && negb (permissionsCheck (canMange <$> comments (document this))
                       (Some (u_role u))) in
  deletionAnswered w commentId editorId →
  commentsDisabled this = false →
  findUser w (Some editorId) = Some u →
  findById c_id commentId (commentDocs w) = Some c →
  resultOf run
  = Some (Success {| comment := c;
                     children := Some (childrenOf commentId (commentDocs w)) |}
            C_SUCCESS_DELETE (Some ST_SUCCESS))
  ∧ callsSince w run
    = [Call_User_findById (Some editorId); Call_findById TheCommentModel commentId]
      ++ (if foreign
          then [Call_permissionsCheck (canMange <$> comments (document this))
                  (Some (u_role u))]
          else [])
      ++ (if denied
          then [Call_singleError "editor" C_NO_PERMISSION (Some ST_FORBIDDEN)]
          else [])
      ++ [Call_deleteOne TheCommentModel (Some commentId)]
      ++ ((λ child, Call_findByIdAndUpdate TheCommentModel (c_id child))
            <$> childrenOf commentId (commentDocs w))
      ++ [Call_success C_SUCCESS_DELETE (Some ST_SUCCESS)].
Proof.
  intros run foreign denied (Huser & Hfind & Hdel & Hkids) Hen Hu Hc.
  subst run foreign denied.
  unfold findUser in Hu.
  destruct (users w !! editorId) as [r|] eqn:Hr; simplify_eq/=.
  pose proof (findById_Some _ _ _ _ Hc) as [_ Hk].
  unfold deleteComment. steps. rewrite Hen. steps. rewrite Hr. steps.
  rewrite Hc. steps.
  unfold populate. cbn. rewrite Hk.
  destruct (strictNotEqual _ _); cbn;
    [destruct (permissionsCheck _ _); cbn|].
  all: rewrite Hdel; cbn.
  all: match goal with |- context [for_of ?l ?b ?w1] =>
         destruct (for_of_cascade_run (R:=Result ERole CommentDoc PageData) l w1 Hkids)
           as (w2 & Hloop & Hcalls);
         set (x := for_of l b w1);
         change (for_of l _ w1) with x in Hloop; rewrite Hloop
       end; cbn.
  all: split; [done|]; unfold callsSince; cbn; rewrite Hcalls; cbn.
  all: rewrite <- !app_assoc; by rewrite drop_app_length.
Qed.

(** C3: after a successful [deleteComment] of a comment, the comment is
    no longer stored, every direct child (every comment whose parent is
    the comment's identifier) has the state PARENT_DELETED, and the
    children of those children are as they were: the cascade is one
    level deep. *)
Theorem deleteComment_cascades (this : Doc ERole) (commentId editorId : Id)
    (w w' : World ERole) (cd : CommentDoc) (message : Msg)
    (status : option EStatusCodes) :
  deleteComment this commentId editorId w = Resolved (Success cd message status) w' →
  NoDup (c_id <$> commentDocs w) →
  findById c_id commentId (commentDocs w) = Some (comment cd)
  ∧ cascaded commentId (commentDocs w) (commentDocs w')
  ∧ commentDocs w' = markChild commentId <$> removeById c_id commentId (commentDocs w).
Proof.
  intros Hrun Hnd.
  apply deleteComment_success_inv in Hrun as (c & Hc & -> & Hdocs & _).
  rewrite cascade_children in Hdocs by done. rewrite Hdocs.
  repeat split; try done; by apply cascaded_markChild.
Qed.

(** C5: for a stored comment and an editor the user directory holds who
    is not the comment's author and does not satisfy [canMange],
    [deleteComment] builds the no-permission error and goes on: it
    deletes the comment, sets its direct children to PARENT_DELETED and
    hands back a success. *)
Theorem deleteComment_denied_still_deletes (this : Doc ERole)
    (commentId editorId : Id) (w : World ERole) (u : User ERole) (c : Comment) :
  let run := deleteComment this commentId editorId w in
  deletionAnswered w commentId editorId →
  commentsDisabled this = false →
  findUser w (Some editorId) = Some u →
  findById c_id commentId (commentDocs w) = Some c →
  strictNotEqual (c_user c) (Some (id u)) = true →
  permissionsCheck (canMange <$> comments (document this)) (Some (u_role u)) = false →
  NoDup (c_id <$> commentDocs w) →
  callsSince w run
  = [Call_User_findById (Some editorId);
     Call_findById TheCommentModel commentId;
     Call_permissionsCheck (canMange <$> comments (document this)) (Some (u_role u));
     Call_singleError "editor" C_NO_PERMISSION (Some ST_FORBIDDEN);
     Call_deleteOne TheCommentModel (Some commentId)]
    ++ ((λ child, Call_findByIdAndUpdate TheCommentModel (c_id child))
          <$> childrenOf commentId (commentDocs w))
    ++ [Call_success C_SUCCESS_DELETE (Some ST_SUCCESS)]
  ∧ resultOf run
    = Some (Success {| comment := c;
                       children := Some (childrenOf commentId (commentDocs w)) |}
              C_SUCCESS_DELETE (Some ST_SUCCESS))
  ∧ cascaded commentId (commentDocs w) (commentDocs (worldOf run)).
Proof.
  intros run Hanswered Hen Hu Hc Hforeign Hdenied Hnd.
  destruct (deleteComment_run this commentId editorId w u c Hanswered Hen Hu Hc)
    as [Hres Hcalls].
  fold run in Hres, Hcalls. rewrite Hforeign, Hdenied in Hcalls.
  split; [exact Hcalls|]. split; [exact Hres|].
  destruct run as [r w'|] eqn:Hrun; [|done]. cbn in Hres. simplify_eq.
  apply deleteComment_success_inv in Hrun as (c' & _ & _ & Hdocs & _).
  cbn. rewrite Hdocs, cascade_children by done.
  by apply cascaded_markChild.
Qed.

(** C4: for an editor the user directory holds whose role does not
    satisfy the role of [canVerify], [editComment] stores the comment
    with the state WAITING whatever state the caller submitted, and
    hands the stored comment back. *)
Theorem editComment_forces_waiting (this : Doc ERole) (commentId : Id)
    (data : CommentPatch) (editorId : Id) (w : World ERole)
    (u : User ERole) (c : Comment) :
  let run := editComment this commentId data editorId w in
  answers (Call_User_findById (Some editorId)) →
  answers (Call_findByIdAndUpdate TheCommentModel commentId) →
  commentsDisabled this = false →
  findUser w (Some editorId) = Some u →
  permissionsCheck (role <$> (canVerify <$> comments (document this)))
    (Some (u_role u)) = false →
  findById c_id commentId (commentDocs w) = Some c →
  ∃ stored,
    findById c_id commentId (commentDocs (worldOf run)) = Some stored
    ∧ c_state stored = WAITING
    ∧ stored = applyCommentPatch (set_cp_state WAITING data) c
    ∧ resultOf run
      = Some (Success {| comment := stored; children := None |}
                C_SUCCESS_EDIT (Some ST_SUCCESS)).
Proof.
  intros run Huser Hupdate Hen Hu Hp Hc. subst run.
  unfold findUser in Hu.
  destruct (users w !! editorId) as [r|] eqn:Hr; simplify_eq/=.
  unfold editComment. steps. rewrite Hen. steps. rewrite Hr. steps.
  rewrite Hp. steps.
  rewrite findById_updateById by done. rewrite Hc. steps.
  eexists. split; [rewrite findById_updateById by done; by rewrite Hc|].
  by repeat split.
Qed.

(** [getDocumentComments] never consults the document collection: its
    answer is the same whatever documents are stored. *)
Lemma getDocumentComments_ignores_documents this identity page limit w l :
  answers (Call_findDocByIdentity TheCommentModel identity) →
  (∀ skip size, answers (Call_find TheCommentModel skip size)) →
  answers (Call_countDocuments TheCommentModel) →
  resultOf (getDocumentComments this identity page limit (setDocs l w))
  = resultOf (getDocumentComments this identity page limit w).
Proof.
  intros Hdoc Hfind Hcount. unfold getDocumentComments, CommentModel_find,
    CommentModel_countDocuments.
  steps. destruct (commentsDisabled this); steps; [done|].
  destruct (findDocByIdentity _ _ _ _ _); steps; [|done].
  destruct (bool_decide _); steps; [done|]. rewrite !Hfind. by steps.
Qed.

(** Without [strictQuery], the filter of [getDocumentComments] matches
    no stored comment. *)
Lemma getDocumentComments_filter_matches_nothing (i : Id) (coll : list Comment) :
  strictQuery = false →
  List.filter
    (matchesCommentFilter
       {| f_user := None; f_state := Some ACCEPTED; f_article := Some i |}) coll
  = [].
Proof.
  intros Hs. induction coll as [|c coll IH]; [done|]. simpl.
  unfold matchesCommentFilter at 1. simpl. rewrite Hs, andb_false_r. exact IH.
Qed.

(** Under [strictQuery], the filter of [getDocumentComments] is the
    state alone: it matches the accepted comments of every document. *)
Lemma getDocumentComments_filter_ignores_document (i : Id) (c : Comment) :
  strictQuery = true →
  matchesCommentFilter
    {| f_user := None; f_state := Some ACCEPTED; f_article := Some i |} c
  = bool_decide (c_state c = ACCEPTED).
Proof.
  intros Hs. unfold matchesCommentFilter. simpl. by rewrite Hs, andb_true_r.
Qed.
End CommentOperations.

(** * The methods on the sample store *)
Section OnTheSample.
Import Deployment Sample.

(** C1: [delete] addressed at the second document, by a seller who
    passes the role check of a public delete policy.  The identity
    resolves to the second document and the success carries it, but the
    record removed from storage is the first document; the addressed
    record is still stored. *)
Theorem delete_removes_another_record :
  let run := delete this idB (Some seller) world in
  findDocByIdentity DocRecord d_id d_slug idB (docs world) = Some docB
  ∧ resultOf run = Some (Success docB SUCCESS_DELETE (Some ST_SUCCESS))
  ∧ docs (worldOf run) = [docB]
  ∧ docA ∉ docs (worldOf run).
Proof.
  repeat split; try (vm_compute; reflexivity).
  intros Hin. apply list_elem_of_singleton in Hin. discriminate Hin.
Qed.

(** C6: [getDocumentComments] addressed at the first document, which is
    stored and has accepted comments.  The identity is looked up among
    the comments, where it resolves to nothing, and the answer is the
    not-found error, under either setting of [strictQuery]. *)
Theorem getDocumentComments_misses_the_document (strict : bool) :
  let run :=
    getDocumentComments (Collaborators0:=collaborators strict) this idA 1%Z 10%Z world in
  findDocByIdentity DocRecord d_id d_slug idA (docs world) = Some docA
  ∧ List.filter (λ c, bool_decide (c_document c = idA ∧ c_state c = ACCEPTED))
      (commentDocs world)
    = [commentC; commentX; commentY; commentG]
  ∧ resultOf run
    = Some (SingleError "article" C_ARTICLE_NOT_FOUND (Some ST_NOT_FOUND)).
Proof. destruct strict; repeat split; vm_compute; reflexivity. Qed.

(** Addressed with the identifier of a comment, [getDocumentComments]
    answers with a page: empty without [strictQuery]; under
    [strictQuery] every accepted comment, of either document. *)
Lemma getDocumentComments_of_a_comment :
  (∃ pageData,
     resultOf (getDocumentComments (Collaborators0:=collaborators false)
                 this idC 1%Z 10%Z world)
     = Some (Paged (Named ST_SUCCESS) [] pageData))
  ∧ (∃ pageData,
       resultOf (getDocumentComments (Collaborators0:=collaborators true)
                   this idC 1%Z 10%Z world)
       = Some (Paged (Named ST_SUCCESS)
                 (populate world <$> [commentC; commentX; commentY; commentG; commentZ])
                 pageData)).
Proof. split; eexists; vm_compute; reflexivity. Qed.

(** C10, as stated, fails on an empty [userId]: it is supplied, the user
    directory holds nobody under it, and the answer is the
    user-not-found error. *)
Lemma getAll_empty_userId :
  ¬ (∀ (userId : Id),
       advanceOf this?.adv_getAll ≠ Some GEST →
       users world !! userId = None →
       resultOf (getAll this 1%Z 10%Z None (Some userId) world)
       = Some (SingleError "user" NO_PERMISSION None)).
Proof.
  intros H. specialize (H "").
  assert (Hg : advanceOf this?.adv_getAll ≠ Some GEST) by (vm_compute; discriminate).
  assert (Hu : users world !! "" = None) by (vm_compute; reflexivity).
  specialize (H Hg Hu). vm_compute in H. discriminate H.
Qed.

(** The sample configuration, once constructed, is populated and a
    second normalisation leaves it as it is. *)
Lemma normalize_idempotent_sample :
  normalize (document this) = document this.
Proof.
  refine (proj1 (normalize_idempotent (document this))
            (processPermissions (permissions options)) _ eq_refl eq_refl _).
  repeat split; eexists; reflexivity.
Defined.

(** Three requests for [edit] on the kind that reserves editing to the
    author, each violating several checks at once.  With no record, no
    editor and a new author nobody knows, the record's absence is what is
    reported, nothing else having been called.  For the reader, whose role
    is too low, who is not the author and who names a new author nobody
    knows, the error follows the permission check.  For the seller, whose
    role suffices, the ownership check refuses after the permission check,
    and the new author has not been looked up. *)
Lemma write_checks_in_order_sample :
  (let run := edit guarded "missing" (reassignTo stranger) None world in
   resultOf run = Some (SingleError "document" DOCUMENT_NOT_FOUND None)
   ∧ callsSince world run
     = [Call_findDocByIdentity TheModel "missing";
        Call_singleError "document" DOCUMENT_NOT_FOUND None])
  ∧ (let run := edit guarded idA (reassignTo stranger) (Some reader) world in
     resultOf run = Some (SingleError "user" NO_PERMISSION None)
     ∧ callsSince world run
       = [Call_findDocByIdentity TheModel idA;
          Call_User_findById (Some reader);
          Call_permissionsCheck (Some SELLER_) (Some USER_);
          Call_singleError "user" NO_PERMISSION None])
  ∧ (let run := edit guarded idA (reassignTo stranger) (Some seller) world in
     resultOf run = Some (SingleError "user" NO_PERMISSION None)
     ∧ callsSince world run
       = [Call_findDocByIdentity TheModel idA;
          Call_User_findById (Some seller);
          Call_permissionsCheck (Some SELLER_) (Some SELLER_);
          Call_singleError "user" NO_PERMISSION None]).
Proof.
  split; [|split].
  - exact (proj1 (write_checks_in_order guarded "missing" (reassignTo stranger) None
                    world (λ w, eq_refl) (λ w, eq_refl))).
  - exact (proj1 (write_checks_in_order guarded idA (reassignTo stranger) (Some reader)
                    world (λ w, eq_refl) (λ w, eq_refl))).
  - exact (proj1 (write_checks_in_order guarded idA (reassignTo stranger) (Some seller)
                    world (λ w, eq_refl) (λ w, eq_refl))).
Defined.

(** The reader, who passes the edit policy, hands the first document to
    the seller, whom the edit policy would admit and the create policy
    does not. *)
Lemma edit_reassignment_checked_sample :
  let run := edit this idA (reassignTo seller) (Some reader) world in
  permissionsCheck (role <$> advanceOf this?.adv_edit) (Some SELLER_) = true
  ∧ resultOf run = Some (SingleError "new_author" NEW_AUTHOR_IS_NOT_VALID None)
  ∧ docs (worldOf run) = docs world.
Proof.
  intros run. split; [reflexivity|].
  refine (proj1 (proj2 (edit_reassignment_checked this idA (reassignTo seller)
                          (Some reader) world docA (Some (AsString seller))
                          _ _ _ _ _ _ _ _ _))
            {| id := seller; u_role := SELLER_ |} _ _).
  - intros w; reflexivity.
  - intros w; reflexivity.
  - intros w; reflexivity.
  - intros w; reflexivity.
  - vm_compute; reflexivity.
  - vm_compute; reflexivity.
  - vm_compute; reflexivity.
  - vm_compute; reflexivity.
  - reflexivity.
  - vm_compute; reflexivity.
  - vm_compute; reflexivity.
Defined.

(** A caller nobody knows asks for the list, under an identifier in the
    identifier format and then under one that is not. *)
Lemma getAll_unknown_user_sample :
  resultOf (getAll this 1%Z 10%Z None (Some stranger) world)
  = Some (SingleError "user" NO_PERMISSION None)
  ∧ getAll this 1%Z 10%Z None (Some "ghost") world
    = Rejected (Call_User_findById (Some "ghost"))
        (record (Call_User_findById (Some "ghost")) world).
Proof.
  split.
  - refine (proj1 (proj2 (getAll_unknown_user this 1%Z 10%Z None (Some stranger)
                            world _)) _ _ _ _).
    + vm_compute; discriminate.
    + reflexivity.
    + intros w; reflexivity.
    + vm_compute; reflexivity.
    + vm_compute; reflexivity.
  - refine (proj1 (proj2 (proj2 (getAll_unknown_user this 1%Z 10%Z None (Some "ghost")
                                   world _))) _ _).
    + vm_compute; discriminate.
    + reflexivity.
    + reflexivity.
Defined.

Lemma sample_comment_ids_unique : NoDup (c_id <$> commentDocs world).
Proof.
  apply (bool_decide_unpack (NoDup (c_id <$> commentDocs world))).
  vm_compute. exact I.
Defined.

(** The storage layer answers every call of a deletion of [C]: the
    identifiers of the editor, of [C] and of its children are in the
    identifier format. *)
Lemma sample_deletion_answered (editorId : Id) :
  isValidObjectId editorId = true → deletionAnswered world idC editorId.
Proof.
  intros Hid. split; [|split; [|split]].
  - intros w. cbn. by rewrite Hid.
  - intros w; reflexivity.
  - intros w; reflexivity.
  - intros child Hin w. vm_compute in Hin.
    repeat (apply elem_of_cons in Hin as [->|Hin]; [reflexivity|]).
    by apply elem_of_nil in Hin.
Defined.

(** The administrator deletes the comment [C]: [X] and [Y] are set to
    PARENT_DELETED, [G] and [Z] are as they were. *)
Lemma deleteComment_cascades_sample :
  let run := deleteComment this idC admin world in
  resultOf run
  = Some (Success (populate world commentC) C_SUCCESS_DELETE (Some ST_SUCCESS))
  ∧ commentDocs (worldOf run)
    = [applyCommentPatch (statePatch PARENT_DELETED) commentX;
       applyCommentPatch (statePatch PARENT_DELETED) commentY;
       commentG; commentZ]
  ∧ cascaded idC (commentDocs world) (commentDocs (worldOf run)).
Proof.
  intros run.
  assert (Hrun : run = Resolved (Success (populate world commentC)
                                   C_SUCCESS_DELETE (Some ST_SUCCESS))
                         (worldOf run))
    by (vm_compute; reflexivity).
  split; [vm_compute; reflexivity|]. split; [vm_compute; reflexivity|].
  exact (proj1 (proj2 (deleteComment_cascades this idC admin world (worldOf run)
                         _ _ _ Hrun sample_comment_ids_unique))).
Defined.

(** The seller, who neither wrote [C] nor manages comments, deletes it. *)
Lemma deleteComment_denied_still_deletes_sample :
  let run := deleteComment this idC seller world in
  Call_singleError "editor" C_NO_PERMISSION (Some ST_FORBIDDEN) ∈ callsSince world run
  ∧ resultOf run
    = Some (Success (populate world commentC) C_SUCCESS_DELETE (Some ST_SUCCESS))
  ∧ cascaded idC (commentDocs world) (commentDocs (worldOf run)).
Proof.
  intros run.
  split; [vm_compute; do 3 right; left|].
  refine (proj2 (deleteComment_denied_still_deletes this idC seller world
                   {| id := seller; u_role := SELLER_ |} commentC
                   _ _ _ _ _ _ sample_comment_ids_unique)).
  - apply sample_deletion_answered; reflexivity.
  - reflexivity.
  - vm_compute; reflexivity.
  - vm_compute; reflexivity.
  - reflexivity.
  - reflexivity.
Defined.

(** The reader, who does not verify comments, submits ACCEPTED for [X]. *)
Lemma editComment_forces_waiting_sample :
  let run := editComment this idX accept reader world in
  cp_state accept = Some ACCEPTED
  ∧ c_state <$> findById c_id idX (commentDocs (worldOf run)) = Some WAITING.
Proof.
  intros run. split; [reflexivity|].
  destruct (editComment_forces_waiting this idX accept reader world
              {| id := reader; u_role := USER_ |} commentX) as (stored & Hf & Hs & _).
  - intros w; reflexivity.
  - intros w; reflexivity.
  - reflexivity.
  - vm_compute; reflexivity.
  - reflexivity.
  - vm_compute; reflexivity.
  - fold run in Hf. rewrite Hf. cbn. by rewrite Hs.
Defined.
End OnTheSample.

(** * Properties of the other operations, and further properties of the
    operations above *)

(** ** Operations that store nothing *)
Section ReadOnly.
Context {ERole JsNumber PageData : Type}.
Context `{!EqDecision ERole, !RoleEnum ERole}.
Context `{!Collaborators ERole JsNumber PageData}.
Context `{!Persistence ERole PageData}.

Lemma sameStorage_refl (w : World ERole) : sameStorage w w.
Proof. by repeat split. Qed.

Lemma sameStorage_trans (w1 w2 w3 : World ERole) :
  sameStorage w1 w2 → sameStorage w2 w3 → sameStorage w1 w3.
Proof.
  intros (? & ? & ?) (? & ? & ?). repeat split; congruence.
Qed.

Lemma readOnly_ret {R A} (a : A) : readOnly (mret a : M ERole R A).
Proof. intros w. apply sameStorage_refl. Qed.

Lemma readOnly_bind {R A B} (m : M ERole R A) (k : A → M ERole R B) :
  readOnly m → (∀ a, readOnly (k a)) → readOnly (m ≫= k).
Proof.
  intros Hm Hk w. specialize (Hm w). unfold mbind, M_bind.
  destruct (m w) as [a w'| |]; try done.
  eapply sameStorage_trans; [exact Hm|]. apply Hk.
Qed.

Lemma readOnly_return_ {R A} (m : M ERole R R) :
  readOnly m → readOnly (return_ (A:=A) m).
Proof. intros Hm w. specialize (Hm w). unfold return_. by destruct (m w). Qed.

Lemma readOnly_try_catch {R A} (body : M ERole R A) (handler : Call ERole → M ERole R A) :
  readOnly body → (∀ e, readOnly (handler e)) → readOnly (try_catch body handler).
Proof.
  intros Hb Hh w. specialize (Hb w). unfold try_catch.
  destruct (body w) as [| |e w']; try done.
  eapply sameStorage_trans; [exact Hb|]. apply Hh.
Qed.

Lemma readOnly_query {R A} (c : Call ERole) (f : World ERole → A) :
  readOnly (query (R:=R) c f).
Proof. intros w. unfold query, storage. by destruct (storageFaults c w). Qed.

Lemma readOnly_traced {R A} (c : Call ERole) (a : A) : readOnly (traced (R:=R) c a).
Proof. by intros w. Qed.

Lemma readOnly_throw {R A} (e : Call ERole) : readOnly (throw (R:=R) (A:=A) e).
Proof. intros w. apply sameStorage_refl. Qed.

Lemma readOnly_if_ {R} (c : bool) (m : M ERole R unit) :
  readOnly m → readOnly (if_ c m).
Proof. intros Hm. destruct c; [done|]. apply readOnly_ret. Qed.

Lemma readOnly_or_return {R A} (x : option A) (r : M ERole R R) :
  readOnly r → readOnly (or_return x r).
Proof.
  intros Hr. destruct x; [apply readOnly_ret|]. by apply readOnly_return_.
Qed.

Lemma readOnly_settle {R} (body : M ERole R Empty_set) (w : World ERole) :
  readOnly body → sameStorage w (worldOf (settle body w)).
Proof.
  intros Hb. specialize (Hb w). unfold settle.
  by destruct (body w) as [[]| |].
Qed.

Lemma readOnly_find {R} filter sort skip limit :
  readOnly (Model_find (R:=R) filter sort skip limit).
Proof.
  intros w. unfold Model_find. destruct (bool_decide _); [done|].
  apply readOnly_query.
Qed.

Lemma readOnly_find_comments {R} filter skip limit :
  readOnly (CommentModel_find (R:=R) filter skip limit).
Proof.
  intros w. unfold CommentModel_find. destruct (bool_decide _); [done|].
  apply readOnly_query.
Qed.

Lemma readOnly_find_sorted {R} filter sort skip limit :
  readOnly (CommentModel_find_sorted (R:=R) filter sort skip limit).
Proof.
  intros w. unfold CommentModel_find_sorted. destruct (bool_decide _); [done|].
  apply readOnly_query.
Qed.

(** Decomposition of a method body into its statements. *)
Ltac read_only :=
  repeat first
    [ apply readOnly_return_
    | apply readOnly_try_catch; [|intros ?]
    | apply readOnly_if_
    | apply readOnly_or_return
    | apply readOnly_traced
    | apply readOnly_throw
    | apply readOnly_query
    | apply readOnly_find
    | apply readOnly_find_comments
    | apply readOnly_find_sorted
    | apply readOnly_ret
    | apply readOnly_bind; [|intros ?]
    | match goal with
      | |- readOnly (if ?b then _ else _) => destruct b
      | |- readOnly (match ?x with _ => _ end) => destruct x
      | |- readOnly (let '(_, _) := ?x in _) => destruct x
      end ].

(** X1: the five reading operations store nothing: after [getAll],
    [getOne], [getComment], [getComments] or [getDocumentComments], however
    the call ends and whether or not the storage layer faults, the two
    collections and the user directory are as before. *)
Theorem reading_stores_nothing (this : Doc ERole) (w : World ERole)
    (identity : string) (userId : option Id) (page limit : JsNumber)
    (sort : option (list string)) (options : option (ICommentFilter * string)) :
  sameStorage w (worldOf (getAll this page limit sort userId w))
  ∧ sameStorage w (worldOf (getOne this identity userId w))
  ∧ sameStorage w (worldOf (getComment this identity w))
  ∧ sameStorage w (worldOf (getComments this page limit options w))
  ∧ sameStorage w (worldOf (getDocumentComments this identity page limit w)).
Proof.
  split; [|split; [|split; [|split]]]; apply readOnly_settle.
  - unfold getAll. cbv zeta. unfold User_findById, permissionsCheck_, singleError,
      Model_countDocuments, handleModelErrors. read_only.
  - unfold getOne, User_findById, permissionsCheck_, singleError, success,
      Model_findDocByIdentity. read_only.
  - unfold getComment, disabled, Model_findById, singleError, success. read_only.
  - unfold getComments.
    match goal with |- context [nullish options ?d] =>
      destruct (nullish options d) as [filter srt] end.
    unfold disabled, CommentModel_countDocuments, handleModelErrors. read_only.
  - unfold getDocumentComments. cbv zeta.
    unfold disabled, CommentModel_findDocByIdentity, singleError,
      CommentModel_countDocuments, handleModelErrors. read_only.
Qed.
End ReadOnly.

(** ** Pages *)
Section Pages.
Context {A : Type}.

Lemma elem_of_skipLimit (skip limit : Z) (l : list A) (x : A) :
  x ∈ skipLimit skip limit l → x ∈ l.
Proof.
  unfold skipLimit. destruct (bool_decide _); intros Hx.
  - eapply elem_of_sublist; [exact Hx|]. apply sublist_drop.
  - eapply elem_of_sublist; [|apply sublist_drop].
    eapply elem_of_sublist; [exact Hx|]. apply sublist_take.
Qed.

Lemma length_skipLimit (skip limit : Z) (l : list A) :
  limit ≠ 0%Z → length (skipLimit skip limit l) ≤ Z.to_nat (Z.abs limit).
Proof.
  intros Hl. unfold skipLimit. rewrite bool_decide_false by done.
  rewrite length_take. lia.
Qed.

(** Two consecutive pages are the double page: nothing is left out between
    them and nothing is listed twice. *)
Lemma skipLimit_consecutive (page limit : Z) (l : list A) :
  (1 ≤ page)%Z → (1 ≤ limit)%Z →
  skipLimit ((page - 1) * limit) limit l ++ skipLimit ((page + 1 - 1) * limit) limit l
  = skipLimit ((page - 1) * limit) (2 * limit) l.
Proof.
  intros Hp Hl. unfold skipLimit.
  rewrite !bool_decide_false by lia.
  replace (Z.to_nat ((page + 1 - 1) * limit))
    with (Z.to_nat ((page - 1) * limit) + Z.to_nat (Z.abs limit)) by nia.
  replace (Z.to_nat (Z.abs (2 * limit)))
    with (Z.to_nat (Z.abs limit) + Z.to_nat (Z.abs limit)) by lia.
  rewrite <- drop_drop. apply take_take_drop.
Qed.
End Pages.

(** ** [getAll] and [getOne] *)
Section DocumentReads.
Context {ERole JsNumber PageData : Type}.
Context `{!EqDecision ERole, !RoleEnum ERole}.
Context `{!Collaborators ERole JsNumber PageData}.
Context `{!Persistence ERole PageData}.

(** What a page of [getAll] holds, whenever [getAll] answers with a page. *)
Lemma getAll_page this page limit sort userId w status data pageData :
  resultOf (getAll this page limit sort userId w) = Some (Paged status data pageData) →
  let filter := if listsDrafts this w userId then None else Some PUBLISHED in
  let listed := List.filter (matchesDocFilter filter) (docs w) in
  readGatePasses (advanceOf this?.adv_getAll) w userId = true
  ∧ data = skipLimit ((ConvertToNaturalNumber page - 1) * ConvertToNaturalNumber limit)
             (ConvertToNaturalNumber limit)
             (sortDocs (String.concat " " (sort ?? ["-createdAt"])) listed)
  ∧ pageData = getPageData (ConvertToNaturalNumber page) (ConvertToNaturalNumber limit)
                 (length listed).
Proof.
  unfold getAll, Model_find, Model_countDocuments, readGatePasses, listsDrafts.
  steps.
  repeat (branch; steps); intros H; cbn in *; simplify_eq; try done.
  all: congruence.
Qed.

(** X2: a page of [getAll] holds at most |limit| documents (for a limit
    that is not coerced to zero), every one of them stored, and every one
    of them PUBLISHED unless the getDrafts role is the guest role or the
    caller supplied a [userId] whose role satisfies it.  (The order of
    [sort] is assumed to add no document.) *)
Theorem getAll_hides_drafts (this : Doc ERole) (page limit : JsNumber)
    (sort : option (list string)) (userId : option Id) (w : World ERole)
    (status : Status) (data : list DocRecord) (pageData : PageData) :
  resultOf (getAll this page limit sort userId w) = Some (Paged status data pageData) →
  (∀ spec l d, d ∈ sortDocs spec l → d ∈ l) →
  (ConvertToNaturalNumber limit ≠ 0%Z →
     length data ≤ Z.to_nat (Z.abs (ConvertToNaturalNumber limit)))
  ∧ (∀ d, d ∈ data → d ∈ docs w)
  ∧ (listsDrafts this w userId = false → ∀ d, d ∈ data → d_state d = PUBLISHED).
Proof.
  intros Hrun Hsort. apply getAll_page in Hrun as (_ & -> & _).
  split; [intros Hl; by apply length_skipLimit|].
  split.
  - intros d Hd%elem_of_skipLimit%Hsort.
    apply list_elem_of_In, filter_In in Hd as [Hd _]. by apply list_elem_of_In.
  - intros Hdrafts d Hd%elem_of_skipLimit%Hsort. rewrite Hdrafts in Hd.
    apply list_elem_of_In, filter_In in Hd as [_ Hd].
    by apply bool_decide_eq_true in Hd.
Qed.

(** X3: consecutive pages of [getAll] tile the listing: for the same
    caller and store, the pages [p] and [p + 1] of size [n ≥ 1] together
    are the page of size [2 n] that starts where page [p] starts, so no
    document is left out between them and none is listed twice. *)
Theorem getAll_consecutive_pages (this : Doc ERole) (page next limit : JsNumber)
    (sort : option (list string)) (userId : option Id) (w : World ERole)
    (s1 s2 : Status) (d1 d2 : list DocRecord) (p1 p2 : PageData) :
  resultOf (getAll this page limit sort userId w) = Some (Paged s1 d1 p1) →
  resultOf (getAll this next limit sort userId w) = Some (Paged s2 d2 p2) →
  (1 ≤ ConvertToNaturalNumber page)%Z →
  (1 ≤ ConvertToNaturalNumber limit)%Z →
  ConvertToNaturalNumber next = (ConvertToNaturalNumber page + 1)%Z →
  let filter := if listsDrafts this w userId then None else Some PUBLISHED in
  d1 ++ d2
  = skipLimit ((ConvertToNaturalNumber page - 1) * ConvertToNaturalNumber limit)
      (2 * ConvertToNaturalNumber limit)
      (sortDocs (String.concat " " (sort ?? ["-createdAt"]))
         (List.filter (matchesDocFilter filter) (docs w))).
Proof.
  intros H1 H2 Hp Hl Hn filter.
  apply getAll_page in H1 as (_ & -> & _). apply getAll_page in H2 as (_ & -> & _).
  rewrite Hn. by apply skipLimit_consecutive.
Qed.

(** X4: [getOne] checks the caller before it looks the record up.  When
    reading one document requires more than the guest role, a caller with
    no [userId] gets the user-not-found error; a caller whose role fails
    the check gets the no-permission error, and so does a [userId] that the
    user directory looks up and holds nobody under, when the permission
    check denies an actor without a role; on a [userId] the user directory
    raises on, the call is rejected.  In all three cases the document
    collection has not been consulted, whether or not the identity
    resolves. *)
Theorem getOne_gate_before_lookup (this : Doc ERole) (identity : string)
    (userId : option Id) (w : World ERole) :
  let run := getOne this identity userId w in
  advanceOf this?.adv_getOne ≠ Some GEST →
  (falsy userId = true →
     resultOf run = Some (SingleError "user" USER_NOT_FOUND None)
     ∧ callsSince w run = [Call_singleError "user" USER_NOT_FOUND None])
  ∧ (falsy userId = false →
     answers (Call_User_findById userId) →
     permissionsCheck (advanceOf this?.adv_getOne) (u_role <$> findUser w userId) = false →
     resultOf run = Some (SingleError "user" NO_PERMISSION None)
     ∧ callsSince w run
       = [Call_User_findById userId;
          Call_permissionsCheck (advanceOf this?.adv_getOne) (u_role <$> findUser w userId);
          Call_singleError "user" NO_PERMISSION None])
  ∧ (falsy userId = false →
     storageFaults (Call_User_findById userId) w = true →
     run = Rejected (Call_User_findById userId) (record (Call_User_findById userId) w)).
Proof.
  intros run Hg. subst run. unfold getOne. steps.
  rewrite (bool_decide_true _ Hg). steps. split; [|split].
  - intros ->. steps. split; [done|trace_eq].
  - intros -> Hactor Hp. steps. rewrite Hp. steps.
    split; [done|trace_eq].
  - intros -> Hfault. steps. rewrite Hfault. by steps.
Qed.

(** What [getOne] answers a caller its gate lets through. *)
Lemma getOne_answer this identity userId w :
  answers (Call_User_findById userId) →
  answers (Call_findDocByIdentity TheModel identity) →
  readGatePasses (advanceOf this?.adv_getOne) w userId = true →
  resultOf (getOne this identity userId w)
  = Some match findDocByIdentity DocRecord d_id d_slug identity (docs w) with
         | Some doc => Success doc SUCCESS None
         | None => SingleError "document" DOCUMENT_NOT_FOUND (Some ST_NOT_FOUND)
         end.
Proof.
  intros Hactor Hdoc. unfold getOne, readGatePasses. steps.
  repeat (branch; steps); cbn in *; try done.
Qed.

(** X5: [getOne] serves a draft that [getAll] hides.  With both actions
    open to the caller, a caller for whom [getAll] does not list drafts
    still receives a draft from [getOne] by its identity, while no page of
    [getAll] holds it: the getDrafts policy is not consulted by [getOne]. *)
Theorem getOne_serves_hidden_draft (this : Doc ERole) (identity : string)
    (userId : option Id) (w : World ERole) (doc : DocRecord)
    (page limit : JsNumber) (sort : option (list string)) :
  answers (Call_User_findById userId) →
  answers (Call_findDocByIdentity TheModel identity) →
  (∀ spec l d, d ∈ sortDocs spec l → d ∈ l) →
  readGatePasses (advanceOf this?.adv_getOne) w userId = true →
  listsDrafts this w userId = false →
  findDocByIdentity DocRecord d_id d_slug identity (docs w) = Some doc →
  d_state doc = DRAFT →
  resultOf (getOne this identity userId w) = Some (Success doc SUCCESS None)
  ∧ ∀ status data pageData,
      resultOf (getAll this page limit sort userId w) = Some (Paged status data pageData) →
      doc ∉ data.
Proof.
  intros Hactor Hlookup Hsort Hgate Hdrafts Hdoc Hstate. split.
  - by rewrite getOne_answer, Hdoc.
  - intros status data pageData Hrun Hin.
    apply getAll_page in Hrun as (_ & -> & _).
    apply elem_of_skipLimit, Hsort in Hin. rewrite Hdrafts in Hin.
    apply list_elem_of_In, filter_In in Hin as [_ Hin].
    apply bool_decide_eq_true in Hin. congruence.
Qed.
End DocumentReads.

(** ** Updates of a collection *)
Section UpdateFacts.
Context {R : Type} (key : R → Id).

Lemma findById_None (i : Id) (coll : list R) :
  findById key i coll = None → ∀ r, r ∈ coll → key r ≠ i.
Proof.
  unfold findById. intros H r Hr Hk.
  apply list_elem_of_In in Hr. pose proof (find_none _ _ H r Hr) as Hf.
  simpl in Hf. by rewrite bool_decide_true in Hf.
Qed.

(** An update keeps the identifiers, in their order. *)
Lemma updateById_keys (i : Id) (f : R → R) (coll : list R) :
  (∀ r, key (f r) = key r) →
  key <$> updateById key i f coll = key <$> coll.
Proof.
  intros Hf. induction coll as [|r rest IH]; [done|]. simpl.
  destruct (bool_decide (key r = i)); rewrite !fmap_cons; [by rewrite Hf|].
  by rewrite IH.
Qed.

(** An update leaves the records of every other identifier as they are. *)
Lemma updateById_others (i : Id) (f : R → R) (coll : list R) (x : R) :
  (∀ r, key (f r) = key r) → key x ≠ i →
  x ∈ updateById key i f coll ↔ x ∈ coll.
Proof.
  intros Hf Hx. induction coll as [|r rest IH]; [done|]. simpl.
  destruct (bool_decide (key r = i)) eqn:Hk.
  - apply bool_decide_eq_true in Hk. rewrite !elem_of_cons. split.
    + intros [->|?]; [|by right]. by rewrite Hf in Hx.
    + intros [->|?]; [done|by right].
  - rewrite !elem_of_cons, IH. done.
Qed.

(** An update that finds nothing to read back has changed nothing. *)
Lemma updateById_missed (i : Id) (f : R → R) (coll : list R) :
  (∀ r, key (f r) = key r) →
  findById key i (updateById key i f coll) = None →
  updateById key i f coll = coll.
Proof.
  intros Hf H. rewrite findById_updateById in H by done.
  apply updateById_absent. apply findById_None.
  by destruct (findById key i coll).
Qed.
End UpdateFacts.

(** ** [create], and the outcomes of [edit] and [delete] *)
Section DocumentWrites.
Context {ERole JsNumber PageData : Type}.
Context `{!EqDecision ERole, !RoleEnum ERole}.
Context `{!Collaborators ERole JsNumber PageData}.
Context `{!Persistence ERole PageData}.


Lemma applyDocPatch_reads_back (this : Doc ERole) (data : DocPatch) (d : DocRecord) :
  authorReadsBack d → authorReadsBack (applyDocPatch this data d).
Proof.
  intros Hd i. unfold applyDocPatch; cbn.
  destruct (hasAuthorIdPath this); [|apply Hd].
  destruct (p_authorId data) as [[author|]|]; [done|done|apply Hd].
Qed.

(** X6: when creating requires more than the guest role, [create] refuses
    a caller in this order and stores nothing: no [authorId], or one the
    user directory does not hold, gives the author-not-found error; an
    author whose role fails the create permission gives the no-permission
    error. *)
Theorem create_refuses_in_order (this : Doc ERole) (data : DocPatch)
    (authorId : option Id) (w : World ERole) :
  let run := create this data authorId w in
  answers (Call_User_findById authorId) →
  advanceOf this?.adv_create ≠ Some GEST →
  (falsy authorId = true ∨ findUser w authorId = None →
     resultOf run = Some (SingleError "user" AUTHOR_NOT_FOUND None)
     ∧ docs (worldOf run) = docs w)
  ∧ (∀ user,
       falsy authorId = false → findUser w authorId = Some user →
       permissionsCheck (advanceOf this?.adv_create) (Some (u_role user)) = false →
       resultOf run = Some (SingleError "user" NO_PERMISSION None)
       ∧ docs (worldOf run) = docs w).
Proof.
  intros run Hactor Hg. subst run. unfold create. steps.
  rewrite (bool_decide_true _ Hg). steps. split.
  - intros [Hf|Hu].
    + rewrite Hf. by steps.
    + destruct (falsy authorId); steps; [done|]. rewrite Hu. by steps.
  - intros user -> Hu Hp. steps. rewrite Hu. steps.
    rewrite Hp. by steps.
Qed.



(** X9: [edit] and [delete] change the store only when they answer with a
    success: after any other outcome (an error result, a translated storage
    error, a rejection) the collections and the user directory are as
    before, whether or not the storage layer faults. *)
Theorem writes_fail_without_a_trace (this : Doc ERole) (identity : string)
    (data : DocPatch) (actorId : option Id) (w : World ERole) :
  ((∀ newDoc message status,
      resultOf (edit this identity data actorId w)
      ≠ Some (Success newDoc message status)) →
   sameStorage w (worldOf (edit this identity data actorId w)))
  ∧ ((∀ document message status,
        resultOf (delete this identity actorId w)
        ≠ Some (Success document message status)) →
     sameStorage w (worldOf (delete this identity actorId w))).
Proof.
  split.
  - unfold edit. steps.
    repeat (branch; steps); intros H; try done.
    all: by edestruct H.
  - unfold delete. steps.
    repeat (branch; steps); intros H; try done.
    all: by edestruct H.
Qed.

Lemma strictNotEqual_reads_back (stored : option JsRef) (i : Id) :
  (∀ j, stored ≠ Some (AsString j)) → strictNotEqual stored (Some i) = true.
Proof.
  destruct stored as [[j|j]|]; simpl; try done.
  intros Hs. by destruct (Hs j).
Qed.

(** X10: a policy that is not public admits nobody.  The ownership check
    ([document.authorId !== user?.id]) compares the author as the record
    reads it back, an ObjectId or nothing, with the string identifier of
    the caller, and these are never strictly equal: on a record that reads
    back so, [edit] and [delete] under such a policy never answer with a
    success, whoever calls; a caller who resolves and passes the role
    check, the author included, gets the no-permission error. *)
Theorem private_policy_admits_nobody (this : Doc ERole) (identity : string)
    (data : DocPatch) (actorId : option Id) (w : World ERole) :
  (∀ document,
     findDocByIdentity DocRecord d_id d_slug identity (docs w) = Some document →
     authorReadsBack document) →
  (not_ (public <$> advanceOf this?.adv_edit) = true →
   (∀ newDoc message status,
      resultOf (edit this identity data actorId w) ≠ Some (Success newDoc message status))
   ∧ (answers (Call_findDocByIdentity TheModel identity) →
      answers (Call_User_findById actorId) →
      is_Some (findDocByIdentity DocRecord d_id d_slug identity (docs w)) →
      actorResolves (advanceOf this?.adv_edit) w actorId = true →
      roleCheckPasses (advanceOf this?.adv_edit)
        (actorOf (advanceOf this?.adv_edit) w actorId) = true →
      resultOf (edit this identity data actorId w)
      = Some (SingleError "user" NO_PERMISSION None)))
  ∧ (not_ (public <$> advanceOf this?.adv_delete) = true →
     (∀ document message status,
        resultOf (delete this identity actorId w)
        ≠ Some (Success document message status))
     ∧ (answers (Call_findDocByIdentity TheModel identity) →
        answers (Call_User_findById actorId) →
        is_Some (findDocByIdentity DocRecord d_id d_slug identity (docs w)) →
        actorResolves (advanceOf this?.adv_delete) w actorId = true →
        roleCheckPasses (advanceOf this?.adv_delete)
          (actorOf (advanceOf this?.adv_delete) w actorId) = true →
        resultOf (delete this identity actorId w)
        = Some (SingleError "user" NO_PERMISSION None))).
Proof.
  intros Hreads.
  destruct (findDocByIdentity DocRecord d_id d_slug identity (docs w))
    as [document|] eqn:Hd.
  - specialize (Hreads document eq_refl).
    assert (Hne : ∀ i, strictNotEqual (d_authorId document) (Some i) = true)
      by (intros i; by apply strictNotEqual_reads_back).
    split; intros Hp; (split; [intros ? message status|intros Hdoc Hactor _]).
    + unfold edit. steps. rewrite Hd, Hp. steps.
      repeat (branch; steps); try done; cbn in *; congruence.
    + unfold edit, actorResolves, actorOf, roleCheckPasses, needsActor.
      steps. rewrite Hd, Hp. steps.
      repeat (branch; steps); try done; cbn in *; congruence.
    + unfold delete. steps. rewrite Hd, Hp. steps.
      repeat (branch; steps); try done; cbn in *; congruence.
    + unfold delete, actorResolves, actorOf, roleCheckPasses, needsActor.
      steps. rewrite Hd, Hp. steps.
      repeat (branch; steps); try done; cbn in *; congruence.
  - split; intros Hp; (split; [intros ? message status|by intros _ _ [? ?]]).
    + unfold edit. steps. rewrite Hd. by repeat (branch; steps).
    + unfold delete. steps. rewrite Hd. by repeat (branch; steps).
Qed.
End DocumentWrites.

(** ** The comment operations *)
Section CommentExtras.
Context {ERole JsNumber PageData : Type}.
Context `{!EqDecision ERole, !RoleEnum ERole}.
Context `{!Collaborators ERole JsNumber PageData}.
Context `{!Persistence ERole PageData}.

Lemma constructor_commentsDisabled (raw : IDocOptions ERole) :
  commentsDisabled (constructor raw) = negb ((enabled <$> comments raw) ?? false).
Proof.
  unfold commentsDisabled, commentsEnabled, constructor. simpl.
  destruct (comments raw) as [c|]; simpl; [|done]. by destruct (enabled c).
Qed.

(** X11: for a [Doc] constructed from options whose comments block is
    absent or not enabled, each of the six comment operations answers with
    the disabled error at once: no collaborator is called and the world is
    as before. *)
Theorem comments_off_means_disabled (raw : IDocOptions ERole) (w : World ERole)
    (i editorId : Id) (identity : string) (page limit : JsNumber)
    (options : option (ICommentFilter * string)) (data : IPreComment)
    (patch : CommentPatch) :
  enabled <$> comments raw ≠ Some true →
  let this := constructor raw in
  getComment this i w = Resolved Disabled w
  ∧ getDocumentComments this identity page limit w = Resolved Disabled w
  ∧ getComments this page limit options w = Resolved Disabled w
  ∧ newComment this data editorId w = Resolved Disabled w
  ∧ editComment this i patch editorId w = Resolved Disabled w
  ∧ deleteComment this i editorId w = Resolved Disabled w.
Proof.
  intros Hoff this.
  assert (Hd : commentsDisabled this = true).
  { subst this. rewrite constructor_commentsDisabled.
    destruct (comments raw) as [c|]; simpl in *; [|done].
    destruct (enabled c); [done|done]. }
  unfold getComment, getDocumentComments, getComments, newComment, editComment,
    deleteComment.
  destruct (options ?? _) as [filter srt]. steps. rewrite Hd. by steps.
Qed.

(** X12: [editComment] refuses, and changes no comment, when the user
    directory looks the editor up and does not hold it (the user-not-found
    error with the conflict status, before the storage layer is asked for
    anything) and when no comment has the identifier (the
    comment-not-found error, the update having matched nothing); on an
    editor identifier the user directory raises on, the call is rejected,
    the lookup standing outside the [try]. *)
Theorem editComment_refusals (this : Doc ERole) (commentId : Id)
    (data : CommentPatch) (editorId : Id) (w : World ERole) :
  let run := editComment this commentId data editorId w in
  let lookup := Call_User_findById (Some editorId) in
  commentsDisabled this = false →
  (answers lookup →
   findUser w (Some editorId) = None →
     resultOf run = Some (SingleError "user" C_USER_NOT_FOUND (Some ST_CONFLICT))
     ∧ callsSince w run
       = [lookup; Call_singleError "user" C_USER_NOT_FOUND (Some ST_CONFLICT)])
  ∧ (answers lookup →
     answers (Call_findByIdAndUpdate TheCommentModel commentId) →
     findUser w (Some editorId) ≠ None →
     findById c_id commentId (commentDocs w) = None →
     resultOf run
     = Some (SingleError "commentId" C_COMMENT_NOT_FOUND (Some ST_NOT_FOUND))
     ∧ commentDocs (worldOf run) = commentDocs w)
  ∧ (storageFaults lookup w = true → run = Rejected lookup (record lookup w)).
Proof.
  intros run lookup Hen. subst run lookup. unfold editComment. steps.
  rewrite Hen. steps. unfold findUser. split; [|split].
  - intros Huser Hu. steps.
    destruct (users w !! editorId) as [r|] eqn:Hr; [done|]. steps.
    split; [done|trace_eq].
  - intros Huser Hupdate Hu Hc. steps.
    destruct (users w !! editorId) as [r|] eqn:Hr; [|done]. steps.
    rewrite !findById_updateById by done. rewrite Hc. steps.
    split; [done|]. apply updateById_absent. by apply findById_None.
  - intros Hfault. rewrite Hfault. by steps.
Qed.

(** X13: whatever [editComment] answers, and whether or not the storage
    layer faults, the comment collection keeps its identifiers in their
    order, every comment of another identifier is as it was, and the
    documents and the user directory are untouched. *)
Theorem editComment_touches_one_comment (this : Doc ERole) (commentId : Id)
    (data : CommentPatch) (editorId : Id) (w : World ERole) :
  let after := worldOf (editComment this commentId data editorId w) in
  c_id <$> commentDocs after = c_id <$> commentDocs w
  ∧ (∀ x, c_id x ≠ commentId → x ∈ commentDocs after ↔ x ∈ commentDocs w)
  ∧ docs after = docs w
  ∧ users after = users w.
Proof.
  unfold editComment. steps.
  repeat (branch; steps); try (by repeat split).
  all: match goal with
       | |- context [updateById c_id ?i ?f (commentDocs ?w0)] =>
           destruct (findById c_id i (updateById c_id i f (commentDocs w0)));
           cbn; (split; [by apply updateById_keys|]);
           (split; [intros x Hx; by apply updateById_others|done])
       end.
Qed.

(** X14: an editor whose role satisfies the role of [canVerify] stores the
    payload as submitted: the state the payload names is the state the
    stored comment takes. *)
Theorem editComment_verifier_sets_state (this : Doc ERole) (commentId : Id)
    (data : CommentPatch) (editorId : Id) (w : World ERole)
    (u : User ERole) (c : Comment) (s : ECommentState) :
  let run := editComment this commentId data editorId w in
  answers (Call_User_findById (Some editorId)) →
  answers (Call_findByIdAndUpdate TheCommentModel commentId) →
  commentsDisabled this = false →
  findUser w (Some editorId) = Some u →
  permissionsCheck (role <$> (canVerify <$> comments (document this)))
    (Some (u_role u)) = true →
  findById c_id commentId (commentDocs w) = Some c →
  cp_state data = Some s →
  findById c_id commentId (commentDocs (worldOf run)) = Some (applyCommentPatch data c)
  ∧ c_state (applyCommentPatch data c) = s
  ∧ resultOf run
    = Some (Success {| comment := applyCommentPatch data c; children := None |}
              C_SUCCESS_EDIT (Some ST_SUCCESS)).
Proof.
  intros run Huser Hupdate Hen Hu Hp Hc Hs. subst run.
  unfold findUser in Hu.
  destruct (users w !! editorId) as [r|] eqn:Hr; simplify_eq/=.
  unfold editComment. steps. rewrite Hen. steps.
  rewrite Hr. steps. rewrite Hp. steps.
  rewrite !findById_updateById by done. rewrite Hc. steps.
  rewrite findById_updateById by done. rewrite Hc, Hs. by repeat split.
Qed.

(** X15: [deleteComment] refuses, and deletes nothing, when the user
    directory looks the editor up and does not hold it (the user-not-found
    error with the conflict status, the comment not having been looked up)
    and when no comment has the identifier (the comment-not-found error);
    on an editor identifier the user directory raises on, the call is
    rejected, the lookup standing outside the [try]. *)
Theorem deleteComment_refusals (this : Doc ERole) (commentId editorId : Id)
    (w : World ERole) :
  let run := deleteComment this commentId editorId w in
  let lookup := Call_User_findById (Some editorId) in
  commentsDisabled this = false →
  (answers lookup →
   findUser w (Some editorId) = None →
     resultOf run = Some (SingleError "user" C_USER_NOT_FOUND (Some ST_CONFLICT))
     ∧ callsSince w run
       = [lookup; Call_singleError "user" C_USER_NOT_FOUND (Some ST_CONFLICT)]
     ∧ commentDocs (worldOf run) = commentDocs w)
  ∧ (answers lookup →
     answers (Call_findById TheCommentModel commentId) →
     findUser w (Some editorId) ≠ None →
     findById c_id commentId (commentDocs w) = None →
     resultOf run
     = Some (SingleError "commentId" C_COMMENT_NOT_FOUND (Some ST_NOT_FOUND))
     ∧ commentDocs (worldOf run) = commentDocs w)
  ∧ (storageFaults lookup w = true →
     run = Rejected lookup (record lookup w)).
Proof.
  intros run lookup Hen. subst run lookup. unfold deleteComment. steps.
  rewrite Hen. steps. unfold findUser. split; [|split].
  - intros Huser Hu. steps.
    destruct (users w !! editorId) as [r|] eqn:Hr; [done|]. steps.
    split; [done|]. split; [trace_eq|done].
  - intros Huser Hfind Hu Hc. steps.
    destruct (users w !! editorId) as [r|] eqn:Hr; [|done]. steps.
    rewrite Hc. by steps.
  - intros Hfault. rewrite Hfault. by steps.
Qed.

(** The loop of [deleteComment] touches neither the documents nor the user
    directory, however it ends. *)
Lemma for_of_cascade_keeps {R} (l : list Comment) (w : World ERole) :
  let w' := outcomeWorld (for_of (R:=R) l (λ child,
              CommentModel_findByIdAndUpdate_state (c_id child) PARENT_DELETED;;
              mret tt) w) in
  docs w' = docs w ∧ users w' = users w.
Proof.
  revert w. induction l as [|child l IH]; intros w; [done|].
  rewrite for_of_cons. cbv beta. rewrite cascade_turn.
  destruct (storageFaults _ w); [done|].
  match goal with |- context [for_of l _ ?w1] => specialize (IH w1) end.
  cbv zeta in IH. by destruct (for_of l _ _).
Qed.

(** X16: whatever [deleteComment] answers, and whether or not the storage
    layer faults, the documents and the user directory are as before: the
    operation works on the comment collection alone, and in particular
    never looks at the document a comment belongs to. *)
Theorem deleteComment_keeps_documents (this : Doc ERole) (commentId editorId : Id)
    (w : World ERole) :
  let after := worldOf (deleteComment this commentId editorId w) in
  docs after = docs w ∧ users after = users w.
Proof.
  unfold deleteComment. steps.
  repeat (branch; steps); try done.
  all: unfold populate; cbn.
  all: match goal with |- context [for_of ?l ?b ?w1] =>
         pose proof (for_of_cascade_keeps (R:=Result ERole CommentDoc PageData) l w1)
           as Hloop;
         cbv zeta in Hloop;
         set (x := for_of l b w1);
         change (for_of l _ w1) with x in Hloop; destruct x
       end; cbn in *; done.
Qed.

(** X17: the author test of [deleteComment]
    ([user._id.toString() !== comment.user]) recognises no author.  It
    compares the string identifier of the editor with the user of the
    comment as it reads back, an ObjectId or nothing, and these are never
    strictly equal: the permission check on [canMange] is consulted for
    every editor, the author of the comment included, and for an author
    whom it denies the no-permission error is built as for anybody
    else. *)
Theorem deleteComment_author_test (this : Doc ERole) (commentId editorId : Id)
    (w : World ERole) (u : User ERole) (c : Comment) :
  let run := deleteComment this commentId editorId w in
  let check :=
    Call_permissionsCheck (canMange <$> comments (document this)) (Some (u_role u)) in
  deletionAnswered w commentId editorId →
  commentsDisabled this = false →
  findUser w (Some editorId) = Some u →
  findById c_id commentId (commentDocs w) = Some c →
  userReadsBack c →
  check ∈ callsSince w run
  ∧ (refId <$> c_user c = Some editorId →
     permissionsCheck (canMange <$> comments (document this)) (Some (u_role u)) = false →
     Call_singleError "editor" C_NO_PERMISSION (Some ST_FORBIDDEN) ∈ callsSince w run).
Proof.
  intros run check Hanswered Hen Hu Hc Hreads. subst check.
  destruct (deleteComment_run this commentId editorId w u c Hanswered Hen Hu Hc)
    as [_ Hcalls].
  fold run in Hcalls. rewrite Hcalls. clear Hcalls.
  assert (Hforeign : strictNotEqual (c_user c) (Some (id u)) = true).
  { destruct (c_user c) as [[j|j]|] eqn:Hj; simpl; try done. by destruct (Hreads j). }
  rewrite Hforeign. split.
  - cbn. do 2 right. left.
  - intros _ Hdenied. rewrite Hdenied. cbn. do 3 right. left.
Qed.

(** X18: [newComment] stores one new comment for any user the user
    directory holds, and stamps it with that user: the stored [user] is the
    caller's identifier whatever the payload named.  The only collaborator
    consulted is the user directory: [canWrite] is not checked, and
    neither the document nor the parent comment is looked up. *)
Theorem newComment_stamps_the_caller (this : Doc ERole) (data : IPreComment)
    (userId : Id) (w : World ERole) (u : User ERole) :
  let run := newComment this data userId w in
  let stored := newCommentRecord this (set_pc_user userId data) (commentDocs w) in
  answers (Call_User_findById (Some userId)) →
  commentsDisabled this = false →
  findUser w (Some userId) = Some u →
  pc_title data ≠ "" → pc_body data ≠ "" →
  commentRefused (set_pc_user userId data) (commentDocs w) = false →
  resultOf run
  = Some (Success {| comment := stored; children := None |}
            C_SUCCESS_CREATE (Some ST_SUCCESS_CREATE))
  ∧ commentDocs (worldOf run) = commentDocs w ++ [stored]
  ∧ refId <$> c_user stored = Some userId
  ∧ userReadsBack stored
  ∧ callsSince w run
    = [Call_User_findById (Some userId);
       Call_success C_SUCCESS_CREATE (Some ST_SUCCESS_CREATE)].
Proof.
  intros run stored Huser Hen Hu Ht Hb Href. subst run stored.
  unfold findUser in Hu.
  destruct (users w !! userId) as [r|] eqn:Hr; simplify_eq/=.
  unfold newComment. steps. rewrite Hen. steps.
  rewrite Hr. steps.
  rewrite (bool_decide_false _ Ht), (bool_decide_false _ Hb), Href. steps.
  split; [done|]. split; [done|]. split; [done|]. split; [by intros i|trace_eq].
Qed.

(** The collections [newComment] leaves when it stores the comment. *)
Lemma newComment_stamps_the_caller_run this data userId w u :
  let stored := newCommentRecord this (set_pc_user userId data) (commentDocs w) in
  let written := worldOf (newComment this data userId w) in
  answers (Call_User_findById (Some userId)) →
  commentsDisabled this = false →
  findUser w (Some userId) = Some u →
  pc_title data ≠ "" → pc_body data ≠ "" →
  commentRefused (set_pc_user userId data) (commentDocs w) = false →
  commentDocs written = commentDocs w ++ [stored] ∧ users written = users w.
Proof.
  intros stored written Huser Hen Hu Ht Hb Href. subst stored written.
  unfold findUser in Hu.
  destruct (users w !! userId) as [r|] eqn:Hr; simplify_eq/=.
  unfold newComment. steps. rewrite Hen. steps.
  rewrite Hr. steps.
  rewrite (bool_decide_false _ Ht), (bool_decide_false _ Hb), Href. by steps.
Qed.

(** X19: [newComment] stores nothing when the user directory looks the
    user up and does not hold it (the user-not-found error with the
    conflict status) and when the title or the body is empty (the
    translated error of the refused insertion); on a user identifier the
    user directory raises on, the call is rejected, the lookup standing
    outside the [try]. *)
Theorem newComment_refusals (this : Doc ERole) (data : IPreComment)
    (userId : Id) (w : World ERole) :
  let run := newComment this data userId w in
  let lookup := Call_User_findById (Some userId) in
  commentsDisabled this = false →
  (answers lookup →
   findUser w (Some userId) = None →
     resultOf run = Some (SingleError "user" C_USER_NOT_FOUND (Some ST_CONFLICT))
     ∧ commentDocs (worldOf run) = commentDocs w)
  ∧ (answers lookup →
     findUser w (Some userId) ≠ None →
     pc_title data = "" ∨ pc_body data = "" →
     resultOf run = Some (handleInsertionError CommentDoc TheCommentModel)
     ∧ commentDocs (worldOf run) = commentDocs w)
  ∧ (storageFaults lookup w = true →
     run = Rejected lookup (record lookup w)).
Proof.
  intros run lookup Hen. subst run lookup. unfold newComment. steps.
  rewrite Hen. steps. unfold findUser. split; [|split].
  - intros Huser Hu. steps.
    by destruct (users w !! userId) as [r|] eqn:Hr.
  - intros Huser Hu He. steps.
    destruct (users w !! userId) as [r|] eqn:Hr; [|done]. steps.
    destruct He as [He|He]; rewrite He; cbn; [done|]. by rewrite orb_true_r.
  - intros Hfault. rewrite Hfault. by steps.
Qed.


(** What a page of [getComments] holds, whenever it answers with a page. *)
Lemma getComments_page this page limit options w status data pageData :
  resultOf (getComments this page limit options w) = Some (Paged status data pageData) →
  let '(filter, sort) :=
    options ?? ({| f_user := None; f_state := None; f_article := None |},
                "-createdAt") in
  data = (λ c, {| comment := c; children := None |}) <$>
           skipLimit ((ConvertToNaturalNumber page - 1) * ConvertToNaturalNumber limit)
             (ConvertToNaturalNumber limit)
             (sortComments sort
                (List.filter (matchesCommentFilter filter) (commentDocs w))).
Proof.
  unfold getComments, CommentModel_countDocuments.
  destruct (options ?? _) as [filter srt]. steps.
  repeat (branch; steps); intros H; cbn in *; by simplify_eq.
Qed.

(** X21: [getComments] is a listing without a gate.  A page it answers
    with holds at most |limit| comments (for a limit not coerced to zero),
    each of them stored and matching the caller's filter, none with its
    children loaded; and however it ends, it has consulted neither the user
    directory nor the permission check.  (The order of [sort] is assumed to
    add no comment.) *)
Theorem getComments_lists_without_a_gate (this : Doc ERole) (page limit : JsNumber)
    (filter : ICommentFilter) (sort : string) (w : World ERole) :
  let run := getComments this page limit (Some (filter, sort)) w in
  (∀ spec l c, c ∈ sortComments spec l → c ∈ l) →
  (∀ status data pageData,
     resultOf run = Some (Paged status data pageData) →
     (ConvertToNaturalNumber limit ≠ 0%Z →
        length data ≤ Z.to_nat (Z.abs (ConvertToNaturalNumber limit)))
     ∧ ∀ cd, cd ∈ data →
         comment cd ∈ commentDocs w
         ∧ matchesCommentFilter filter (comment cd) = true
         ∧ children cd = None)
  ∧ List.filter (λ c, isUserLookup c || isPermissionCheck c) (callsSince w run) = [].
Proof.
  intros run Hsort. subst run. split.
  - intros status data pageData Hrun. apply getComments_page in Hrun. cbn in Hrun.
    subst data. split.
    + intros Hl. rewrite length_fmap. by apply length_skipLimit.
    + intros cd (c & -> & Hc)%list_elem_of_fmap. cbn.
      apply elem_of_skipLimit, Hsort in Hc.
      apply list_elem_of_In, filter_In in Hc as [Hc Hm].
      by apply list_elem_of_In in Hc.
  - unfold getComments, CommentModel_countDocuments. steps.
    repeat (branch; steps); unfold callsSince; cbn; rewrite <- ?app_assoc;
      rewrite ?drop_app_length, ?drop_all; done.
Qed.

Lemma removeById_fresh (i : Id) (coll : list Comment) (c : Comment) :
  (∀ x, x ∈ coll → c_id x ≠ i) → c_id c = i →
  removeById c_id i (coll ++ [c]) = coll.
Proof.
  intros Hfresh Hc. induction coll as [|x coll IH]; simpl.
  - by rewrite bool_decide_true.
  - rewrite bool_decide_false by (apply Hfresh; left).
    f_equal. apply IH. intros y Hy. apply Hfresh. by right.
Qed.

Lemma findById_fresh (i : Id) (coll : list Comment) (c : Comment) :
  (∀ x, x ∈ coll → c_id x ≠ i) → c_id c = i →
  findById c_id i (coll ++ [c]) = Some c.
Proof.
  intros Hfresh Hc. unfold findById. induction coll as [|x coll IH]; simpl.
  - by rewrite bool_decide_true.
  - rewrite bool_decide_false by (apply Hfresh; left).
    apply IH. intros y Hy. apply Hfresh. by right.
Qed.

Lemma childrenOf_none (i : Id) (coll : list Comment) :
  (∀ x, x ∈ coll → c_parent x ≠ Some i) → childrenOf i coll = [].
Proof.
  intros Hnone. unfold childrenOf. induction coll as [|x coll IH]; [done|]. simpl.
  rewrite bool_decide_false by (apply Hnone; left).
  apply IH. intros y Hy. apply Hnone. by right.
Qed.

(** X22: a comment that [newComment] has stored is removed again by
    [deleteComment] on its identifier, and the comment collection is then
    exactly what it was before the comment was written, provided the
    storage layer gave the comment an identifier no stored comment carries
    or names as its parent. *)
Theorem newComment_then_deleteComment (this : Doc ERole) (data : IPreComment)
    (userId editorId : Id) (w : World ERole) (u e : User ERole) :
  let stored := newCommentRecord this (set_pc_user userId data) (commentDocs w) in
  let written := worldOf (newComment this data userId w) in
  let run := deleteComment this (c_id stored) editorId written in
  answers (Call_User_findById (Some userId)) →
  answers (Call_User_findById (Some editorId)) →
  answers (Call_findById TheCommentModel (c_id stored)) →
  answers (Call_deleteOne TheCommentModel (Some (c_id stored))) →
  commentsDisabled this = false →
  findUser w (Some userId) = Some u →
  findUser w (Some editorId) = Some e →
  pc_title data ≠ "" → pc_body data ≠ "" →
  commentRefused (set_pc_user userId data) (commentDocs w) = false →
  (∀ x, x ∈ commentDocs w → c_id x ≠ c_id stored ∧ c_parent x ≠ Some (c_id stored)) →
  pc_parent data ≠ Some (c_id stored) →
  resultOf run
  = Some (Success {| comment := stored; children := Some [] |}
            C_SUCCESS_DELETE (Some ST_SUCCESS))
  ∧ commentDocs (worldOf run) = commentDocs w.
Proof.
  intros stored written run Huser Heditor Hfind Hdel Hen Hu He Ht Hb Href Hfresh Hparent.
  destruct (newComment_stamps_the_caller_run this data userId w u Huser Hen Hu Ht Hb Href)
    as (Hdocs & Husers).
  fold stored written in Hdocs, Husers.
  assert (Hfound : findById c_id (c_id stored) (commentDocs written) = Some stored).
  { rewrite Hdocs. apply findById_fresh; [|done]. intros x Hx. by apply Hfresh. }
  assert (Hnone : childrenOf (c_id stored) (commentDocs written) = []).
  { apply childrenOf_none. rewrite Hdocs. intros x [Hx|Hx]%elem_of_app.
    - by apply Hfresh.
    - apply list_elem_of_singleton in Hx. by subst x. }
  assert (He' : findUser written (Some editorId) = Some e).
  { unfold findUser in *. by rewrite Husers. }
  assert (Hanswered : deletionAnswered written (c_id stored) editorId).
  { repeat split; try done. rewrite Hnone. by intros child ?%elem_of_nil. }
  destruct (deleteComment_run this (c_id stored) editorId written e stored
              Hanswered Hen He' Hfound) as [Hres _].
  fold run in Hres. rewrite Hnone in Hres. split; [exact Hres|].
  destruct run as [r w'|] eqn:Hrun; [|done]. cbn in Hres. simplify_eq.
  apply deleteComment_success_inv in Hrun as (c' & _ & _ & Hafter & _).
  cbn. rewrite Hafter, Hnone. cbn. rewrite Hdocs.
  apply removeById_fresh; [|done]. intros x Hx. by apply Hfresh.
Qed.
End CommentExtras.

(** * The other operations on the samples *)
Section OnTheNotes.
Import Deployment DeploymentStore Notes.

#[local] Abbreviation this := Sample.this.
#[local] Abbreviation world := Sample.world.
#[local] Abbreviation admin := Sample.admin.
#[local] Abbreviation seller := Sample.seller.
#[local] Abbreviation reader := Sample.reader.
#[local] Abbreviation stranger := Sample.stranger.
#[local] Abbreviation idA := Sample.idA.
#[local] Abbreviation idC := Sample.idC.
#[local] Abbreviation idX := Sample.idX.
#[local] Abbreviation docA := Sample.docA.
#[local] Abbreviation docB := Sample.docB.
#[local] Abbreviation commentC := Sample.commentC.
#[local] Abbreviation commentX := Sample.commentX.
#[local] Abbreviation accept := Sample.accept.

(** An anonymous caller lists the notes: the page holds the published
    note alone. *)
Lemma getAll_hides_drafts_sample :
  resultOf (getAll notes 1%Z 10%Z None None shelf)
  = Some (Paged (Code 200) [published] (pageData 1 10 1))
  ∧ ∀ d, d ∈ [published] → d ∈ docs shelf ∧ d_state d = PUBLISHED.
Proof.
  assert (Hrun : resultOf (getAll notes 1%Z 10%Z None None shelf)
                 = Some (Paged (Code 200) [published] (pageData 1 10 1)))
    by (vm_compute; reflexivity).
  split; [exact Hrun|].
  destruct (getAll_hides_drafts notes 1%Z 10%Z None None shelf _ _ _ Hrun)
    as (_ & Hstored & Hpublished).
  - intros spec l d Hd. exact Hd.
  - intros d Hd. split; [by apply Hstored|]. apply Hpublished; [|done].
    vm_compute; reflexivity.
Defined.

(** The reader lists the posts one by one. *)
Lemma getAll_consecutive_pages_sample :
  resultOf (getAll this 1%Z 1%Z None (Some reader) world)
  = Some (Paged (Code 200) [docA] (pageData 1 1 2))
  ∧ resultOf (getAll this 2%Z 1%Z None (Some reader) world)
    = Some (Paged (Code 200) [docB] (pageData 2 1 2))
  ∧ [docA] ++ [docB] = skipLimit 0 2 (docs world).
Proof.
  assert (H1 : resultOf (getAll this 1%Z 1%Z None (Some reader) world)
               = Some (Paged (Code 200) [docA] (pageData 1 1 2)))
    by (vm_compute; reflexivity).
  assert (H2 : resultOf (getAll this 2%Z 1%Z None (Some reader) world)
               = Some (Paged (Code 200) [docB] (pageData 2 1 2)))
    by (vm_compute; reflexivity).
  split; [exact H1|]. split; [exact H2|].
  refine (getAll_consecutive_pages this 1%Z 2%Z 1%Z None (Some reader) world
            _ _ _ _ _ _ H1 H2 _ _ _).
  - vm_compute; discriminate.
  - vm_compute; discriminate.
  - reflexivity.
Defined.

(** An anonymous caller, a caller nobody knows and a caller whose
    identifier is not in the identifier format ask for a post that does
    not exist. *)
Lemma getOne_gate_before_lookup_sample :
  resultOf (getOne members "missing" None world)
  = Some (SingleError "user" USER_NOT_FOUND None)
  ∧ (resultOf (getOne members "missing" (Some stranger) world)
     = Some (SingleError "user" NO_PERMISSION None)
     ∧ callsSince world (getOne members "missing" (Some stranger) world)
       = [Call_User_findById (Some stranger);
          Call_permissionsCheck (Some USER_) None;
          Call_singleError "user" NO_PERMISSION None])
  ∧ getOne members "missing" (Some "ghost") world
    = Rejected (Call_User_findById (Some "ghost"))
        (record (Call_User_findById (Some "ghost")) world).
Proof.
  assert (Hg : advanceOf members?.adv_getOne ≠ Some GEST) by (vm_compute; discriminate).
  split; [|split].
  - refine (proj1 (proj1 (getOne_gate_before_lookup members "missing" None world Hg) _)).
    reflexivity.
  - refine (proj1 (proj2 (getOne_gate_before_lookup members "missing" (Some stranger)
                            world Hg)) _ _ _).
    + reflexivity.
    + intros w; reflexivity.
    + vm_compute; reflexivity.
  - refine (proj2 (proj2 (getOne_gate_before_lookup members "missing" (Some "ghost")
                            world Hg)) _ _).
    + reflexivity.
    + reflexivity.
Defined.

(** The draft note is handed to an anonymous caller who names it. *)
Lemma getOne_serves_hidden_draft_sample :
  resultOf (getOne notes idD None shelf) = Some (Success draft SUCCESS None)
  ∧ ∀ status data pageData,
      resultOf (getAll notes 1%Z 10%Z None None shelf)
      = Some (Paged status data pageData) →
      draft ∉ data.
Proof.
  refine (getOne_serves_hidden_draft notes idD None shelf draft 1%Z 10%Z None
            _ _ _ _ _ _ _).
  - intros w; reflexivity.
  - intros w; reflexivity.
  - intros spec l d Hd. exact Hd.
  - vm_compute; reflexivity.
  - vm_compute; reflexivity.
  - vm_compute; reflexivity.
  - reflexivity.
Defined.

(** Nobody, and then a reader, try to create a note. *)
Lemma create_refuses_in_order_sample :
  resultOf (create notes (retitle "memo") None shelf)
  = Some (SingleError "user" AUTHOR_NOT_FOUND None)
  ∧ resultOf (create notes (retitle "memo") (Some reader) shelf)
    = Some (SingleError "user" NO_PERMISSION None).
Proof.
  split.
  - refine (proj1 (proj1 (create_refuses_in_order notes (retitle "memo") None shelf
                            _ _) _)).
    + intros w; reflexivity.
    + vm_compute; discriminate.
    + left; reflexivity.
  - refine (proj1 (proj2 (create_refuses_in_order notes (retitle "memo") (Some reader)
                            shelf _ _)
                     {| id := reader; u_role := USER_ |} _ _ _)).
    + intros w; reflexivity.
    + vm_compute; discriminate.
    + reflexivity.
    + vm_compute; reflexivity.
    + reflexivity.
Defined.



(** A reader tries to delete the published note. *)
Lemma writes_fail_without_a_trace_sample :
  docs (worldOf (delete notes idP (Some reader) shelf)) = docs shelf.
Proof.
  refine (proj1 (proj2 (writes_fail_without_a_trace notes idP (retitle "x")
                          (Some reader) shelf) _)).
  intros document message status. vm_compute. discriminate.
Defined.

(** The seller, who wrote the draft, tries to delete it: the owner-only
    default of [delete] refuses its owner. *)
Lemma private_policy_admits_nobody_sample :
  d_authorId draft = Some (AsObjectId seller)
  ∧ public <$> advanceOf notes?.adv_delete = Some false
  ∧ resultOf (delete notes idD (Some seller) shelf)
    = Some (SingleError "user" NO_PERMISSION None).
Proof.
  split; [reflexivity|]. split; [reflexivity|].
  refine (proj2 (proj2 (private_policy_admits_nobody notes idD (retitle "x")
                          (Some seller) shelf _) _) _ _ _ _ _).
  - intros document Hd i. vm_compute in Hd. injection Hd as <-. discriminate.
  - reflexivity.
  - intros w; reflexivity.
  - intros w; reflexivity.
  - vm_compute. by eexists.
  - vm_compute; reflexivity.
  - vm_compute; reflexivity.
Defined.

(** The kind without a comments block. *)
Lemma comments_off_means_disabled_sample :
  newComment silent (remark None) admin shelf = Resolved Disabled shelf
  ∧ deleteComment silent idC admin shelf = Resolved Disabled shelf.
Proof.
  destruct (comments_off_means_disabled
              {| docName := "Note"; slugBase := None; permissions := None;
                 comments := None |}
              shelf idC admin "x" 1%Z 1%Z None (remark None) accept)
    as (_ & _ & _ & Hnew & _ & Hdel); [discriminate|].
  split; [exact Hnew|exact Hdel].
Defined.

(** An editor nobody knows, the administrator on an identifier no comment
    has, and an editor whose identifier is not in the identifier format. *)
Lemma editComment_refusals_sample :
  resultOf (editComment this idX accept stranger world)
  = Some (SingleError "user" C_USER_NOT_FOUND (Some ST_CONFLICT))
  ∧ resultOf (editComment this idA accept admin world)
    = Some (SingleError "commentId" C_COMMENT_NOT_FOUND (Some ST_NOT_FOUND))
  ∧ editComment this idX accept "ghost" world
    = Rejected (Call_User_findById (Some "ghost"))
        (record (Call_User_findById (Some "ghost")) world).
Proof.
  split; [|split].
  - refine (proj1 (proj1 (editComment_refusals this idX accept stranger world _) _ _)).
    + reflexivity.
    + intros w; reflexivity.
    + vm_compute; reflexivity.
  - refine (proj1 (proj1 (proj2 (editComment_refusals this idA accept admin world _))
                     _ _ _ _)).
    + reflexivity.
    + intros w; reflexivity.
    + intros w; reflexivity.
    + vm_compute; discriminate.
    + vm_compute; reflexivity.
  - refine (proj2 (proj2 (editComment_refusals this idX accept "ghost" world _)) _).
    + reflexivity.
    + reflexivity.
Defined.

(** The reader edits [X]: [C] is as it was. *)
Lemma editComment_touches_one_comment_sample :
  commentC ∈ commentDocs (worldOf (editComment this idX accept reader world)).
Proof.
  refine (proj2 (proj1 (proj2 (editComment_touches_one_comment this idX accept
                                 reader world)) commentC _) _).
  - vm_compute; discriminate.
  - vm_compute; left.
Defined.

(** The administrator rejects [X]. *)
Lemma editComment_verifier_sets_state_sample :
  c_state <$> findById c_id idX
                (commentDocs (worldOf (editComment this idX (statePatch REJECTED)
                                         admin world)))
  = Some REJECTED.
Proof.
  destruct (editComment_verifier_sets_state this idX (statePatch REJECTED) admin world
              {| id := admin; u_role := ADMIN_ |} commentX REJECTED)
    as (Hf & _ & _).
  - intros w; reflexivity.
  - intros w; reflexivity.
  - reflexivity.
  - vm_compute; reflexivity.
  - reflexivity.
  - vm_compute; reflexivity.
  - reflexivity.
  - rewrite Hf. reflexivity.
Defined.

(** An editor nobody knows, the administrator on an identifier no comment
    has, and an editor whose identifier is not in the identifier format. *)
Lemma deleteComment_refusals_sample :
  resultOf (deleteComment this idC stranger world)
  = Some (SingleError "user" C_USER_NOT_FOUND (Some ST_CONFLICT))
  ∧ resultOf (deleteComment this idA admin world)
    = Some (SingleError "commentId" C_COMMENT_NOT_FOUND (Some ST_NOT_FOUND))
  ∧ deleteComment this idC "ghost" world
    = Rejected (Call_User_findById (Some "ghost"))
        (record (Call_User_findById (Some "ghost")) world).
Proof.
  split; [|split].
  - refine (proj1 (proj1 (deleteComment_refusals this idC stranger world _) _ _)).
    + reflexivity.
    + intros w; reflexivity.
    + vm_compute; reflexivity.
  - refine (proj1 (proj1 (proj2 (deleteComment_refusals this idA admin world _))
                     _ _ _ _)).
    + reflexivity.
    + intros w; reflexivity.
    + intros w; reflexivity.
    + vm_compute; discriminate.
    + vm_compute; reflexivity.
  - refine (proj2 (proj2 (deleteComment_refusals this idC "ghost" world _)) _).
    + reflexivity.
    + reflexivity.
Defined.

(** The reader, who wrote the comment [C] and does not manage comments,
    deletes it: the permission check is consulted for its author, and the
    no-permission error is built. *)
Lemma deleteComment_author_test_sample :
  let run := deleteComment this idC reader world in
  refId <$> c_user commentC = Some reader
  ∧ Call_permissionsCheck (Some ADMIN_) (Some USER_) ∈ callsSince world run
  ∧ Call_singleError "editor" C_NO_PERMISSION (Some ST_FORBIDDEN) ∈ callsSince world run.
Proof.
  intros run. split; [reflexivity|].
  destruct (deleteComment_author_test this idC reader world
              {| id := reader; u_role := USER_ |} commentC) as [Hcheck Herror].
  - apply sample_deletion_answered; reflexivity.
  - reflexivity.
  - vm_compute; reflexivity.
  - vm_compute; reflexivity.
  - intros i; discriminate.
  - split; [exact Hcheck|]. apply Herror; reflexivity.
Defined.

(** The reader writes a remark whose payload names the administrator. *)
Lemma newComment_stamps_the_caller_sample :
  let run := newComment notes (remark None) reader shelf in
  pc_user (remark None) = Some admin
  ∧ (c_user <$> last (commentDocs (worldOf run))) = Some (Some (AsObjectId reader))
  ∧ callsSince shelf run
    = [Call_User_findById (Some reader);
       Call_success C_SUCCESS_CREATE (Some ST_SUCCESS_CREATE)].
Proof.
  intros run. split; [reflexivity|].
  destruct (newComment_stamps_the_caller notes (remark None) reader shelf
              {| id := reader; u_role := USER_ |}) as (_ & Hdocs & _ & _ & Hcalls).
  - intros w; reflexivity.
  - reflexivity.
  - vm_compute; reflexivity.
  - discriminate.
  - discriminate.
  - reflexivity.
  - fold run in Hdocs, Hcalls. split; [|exact Hcalls].
    rewrite Hdocs, last_snoc. reflexivity.
Defined.

(** A user nobody knows, the reader with an empty title, and a user whose
    identifier is not in the identifier format. *)
Lemma newComment_refusals_sample :
  resultOf (newComment notes (remark None) stranger shelf)
  = Some (SingleError "user" C_USER_NOT_FOUND (Some ST_CONFLICT))
  ∧ commentDocs (worldOf (newComment notes
                            {| pc_title := ""; pc_body := "text"; pc_document := idP;
                               pc_user := None; pc_parent := None |}
                            reader shelf))
    = commentDocs shelf
  ∧ newComment notes (remark None) "ghost" shelf
    = Rejected (Call_User_findById (Some "ghost"))
        (record (Call_User_findById (Some "ghost")) shelf).
Proof.
  split; [|split].
  - refine (proj1 (proj1 (newComment_refusals notes (remark None) stranger shelf _) _ _)).
    + reflexivity.
    + intros w; reflexivity.
    + vm_compute; reflexivity.
  - refine (proj2 (proj1 (proj2 (newComment_refusals notes _ reader shelf _)) _ _ _)).
    + reflexivity.
    + intros w; reflexivity.
    + vm_compute; discriminate.
    + left; reflexivity.
  - refine (proj2 (proj2 (newComment_refusals notes (remark None) "ghost" shelf _)) _).
    + reflexivity.
    + reflexivity.
Defined.


(** The accepted comments, two to a page. *)
Lemma getComments_lists_without_a_gate_sample :
  let run := getComments this 1%Z 2%Z (Some (accepted, "-createdAt")) world in
  resultOf run
  = Some (Paged (Named ST_SUCCESS)
            [{| comment := commentC; children := None |};
             {| comment := commentX; children := None |}]
            (pageData 1 2 5))
  ∧ List.filter (λ c, isUserLookup c || isPermissionCheck c) (callsSince world run) = [].
Proof.
  intros run. split; [vm_compute; reflexivity|].
  refine (proj2 (getComments_lists_without_a_gate this 1%Z 2%Z accepted "-createdAt"
                   world _)).
  intros spec l c Hc. exact Hc.
Defined.

(** The reader writes a remark and the administrator deletes it. *)
Lemma newComment_then_deleteComment_sample :
  let written := worldOf (newComment notes (remark None) reader shelf) in
  length (commentDocs written) = 6
  ∧ commentDocs (worldOf (deleteComment notes "94b000000000000000000006" admin written))
    = commentDocs shelf.
Proof.
  intros written. split; [vm_compute; reflexivity|].
  refine (proj2 (newComment_then_deleteComment notes (remark None) reader admin shelf
                   {| id := reader; u_role := USER_ |}
                   {| id := admin; u_role := ADMIN_ |} _ _ _ _ _ _ _ _ _ _ _ _)).
  - intros w; reflexivity.
  - intros w; reflexivity.
  - intros w; vm_compute; reflexivity.
  - intros w; reflexivity.
  - reflexivity.
  - vm_compute; reflexivity.
  - vm_compute; reflexivity.
  - discriminate.
  - discriminate.
  - reflexivity.
  - intros x Hx.
    repeat (apply elem_of_cons in Hx as [->|Hx]; [split; vm_compute; discriminate|]).
    by apply elem_of_nil in Hx.
  - discriminate.
Defined.
End OnTheNotes.
